(** * NoteApp: signup / OTP verification flow and note ownership

    A shallow embedding of [NoteApp/app.js], of the Mongoose schemas
    [models/otp.js] and [models/notes.js], and of the second copy of
    [app.js] that checks for an existing account on signup.

    Every Express handler becomes a computation over a [World]: the three
    Mongo collections, the session object of the request and the mails handed
    to the transporter.  An exception thrown inside an [asyncWrap]ped handler
    keeps the writes made before it and reaches the error middleware. *)

From Stdlib Require Import String Ascii List ZArith NArith Bool Lia.
From Stdlib Require Import DecimalString Permutation.
Import ListNotations.

Local Open Scope string_scope.
Local Open Scope list_scope.
Local Open Scope Z_scope.

(** ** Values shared by the models *)

(** A Mongo [ObjectId].  Only equality of ids matters to the handlers. *)
Definition ObjectId := N.

(** A JavaScript [Date], as milliseconds since the epoch. *)
Definition Date := Z.

(** A form field or session key: a string, or [undefined]. *)
Definition Field := option string.

(** JavaScript truthiness of a string-or-undefined value: [undefined] and the
    empty string are falsy. *)
Definition truthy (f : Field) : bool :=
  match f with
  | None => false
  | Some s => negb (s =? "")%string
  end.

(** Equality of two string-or-undefined values, as a Mongo filter
    [{ key: value }] decides it (an [undefined] value selects the documents
    that lack the key). *)
Definition field_eqb (a b : Field) : bool :=
  match a, b with
  | None, None => true
  | Some x, Some y => (x =? y)%string
  | _, _ => false
  end.

(** What a handler can throw. *)
Inductive Exn : Type :=
| ValidationError (model path : string)   (* Mongoose: a required path is missing *)
| CastError (value : string)              (* Mongoose: not an ObjectId *)
| BcryptArgsError                         (* bcrypt: data and salt/hash required *)
| MailError.                              (* nodemailer: delivery failed *)

(** ** The models *)

Module OTP.
(** [models/otp.js]: [userIdentifier] is a required String.  [otp] and
    [createdAt] are optional in the schema; [POST /signup], the only writer,
    always gives both. *)
Record t : Type := mk {
  _id : ObjectId;
  userIdentifier : string;
  otp : string;
  createdAt : Date
}.

(** [OTP.find({ userIdentifier: email })], in natural order. *)
Definition find (email : string) (c : list t) : list t :=
  filter (fun r => (userIdentifier r =? email)%string) c.

(** Insertion of one record into a list that is newest first.  A record is
    placed after the records that are as recent as it is; [sort_desc] inserts
    from the end of the collection, so among records with equal dates the
    one stored last comes first. *)
Fixpoint insert_desc (r : t) (l : list t) : list t :=
  match l with
  | [] => [r]
  | x :: l' =>
      if createdAt x <? createdAt r then r :: l
      else x :: insert_desc r l'
  end.

(** [.sort({ createdAt: -1 })]. *)
Definition sort_desc (l : list t) : list t :=
  fold_right insert_desc [] l.

(** [OTP.deleteOne({ _id: id })]: the first record with that id goes. *)
Fixpoint deleteOne (id : ObjectId) (c : list t) : list t :=
  match c with
  | [] => []
  | x :: c' => if (_id x =? id)%N then c' else x :: deleteOne id c'
  end.

(** Schema validation of [OTP.create]: Mongoose's [required] rejects
    [undefined] and the empty string. *)
Definition validate (email : Field) : Exn + string :=
  match email with
  | Some e => if (e =? "")%string
              then inl (ValidationError "OTP" "userIdentifier")
              else inr e
  | None => inl (ValidationError "OTP" "userIdentifier")
  end.
End OTP.

Module Note.
(** [models/notes.js]: [user] is a required ObjectId, and
    [timestamps: true] adds [createdAt] and [updatedAt]. *)
Record t : Type := mk {
  _id : ObjectId;
  title : Field;
  content : Field;
  user : ObjectId;
  createdAt : Date;
  updatedAt : Date
}.

(** The compound filter [{ _id: id, user: uid }]. *)
Definition matches (id uid : ObjectId) (n : t) : bool :=
  (_id n =? id)%N && (user n =? uid)%N.

(** [Note.find({ user: uid })]. *)
Definition find (uid : ObjectId) (c : list t) : list t :=
  filter (fun n => (user n =? uid)%N) c.

(** [Note.findOne({ _id: id, user: uid })]. *)
Definition findOne (id uid : ObjectId) (c : list t) : option t :=
  List.find (matches id uid) c.

(** The update document [{ title, content }]: a key whose value is
    [undefined] is dropped from the [$set]; the timestamps plugin sets
    [updatedAt]. *)
Definition set_fields (ttl cnt : Field) (now : Date) (n : t) : t :=
  {| _id := _id n;
     title := match ttl with Some _ => ttl | None => title n end;
     content := match cnt with Some _ => cnt | None => content n end;
     user := user n;
     createdAt := createdAt n;
     updatedAt := now |}.

(** [Note.findOneAndUpdate(filter, { title, content }, { new: true })]:
    the first matching note is updated and returned. *)
Fixpoint findOneAndUpdate (id uid : ObjectId) (ttl cnt : Field) (now : Date)
         (c : list t) : option t * list t :=
  match c with
  | [] => (None, [])
  | n :: c' =>
      if matches id uid n
      then (Some (set_fields ttl cnt now n), set_fields ttl cnt now n :: c')
      else let '(r, c'') := findOneAndUpdate id uid ttl cnt now c' in
           (r, n :: c'')
  end.

(** [Note.findOneAndDelete(filter)]: the first matching note is removed and
    returned. *)
Fixpoint findOneAndDelete (id uid : ObjectId) (c : list t)
  : option t * list t :=
  match c with
  | [] => (None, [])
  | n :: c' =>
      if matches id uid n then (Some n, c')
      else let '(r, c'') := findOneAndDelete id uid c' in (r, n :: c'')
  end.
End Note.

Module User.
(** The User model: an email and a bcrypt hash.  A document saved without
    an email lacks the key. *)
Record t : Type := mk {
  _id : ObjectId;
  email : Field;
  password : string
}.

(** [User.findOne({ email })]. *)
Definition findOne (e : Field) (c : list t) : option t :=
  List.find (fun u => field_eqb (email u) e) c.
End User.

(** ** The world a request runs in *)

Record Db : Type := mkDb {
  users : list User.t;
  otps : list OTP.t;
  notes : list Note.t
}.

(** [req.session]: the three keys the handlers read and write.  In a
    [World] it is the session as the session store holds it, which is what
    the next request of the session gets. *)
Record Session : Type := mkSession {
  userId : option ObjectId;
  userIdentifier : Field;
  tempUserIdentifier : Field
}.

Definition empty_session : Session :=
  {| userId := None; userIdentifier := None; tempUserIdentifier := None |}.

(** The options object given to [transporter.sendMail] ([from] is fixed by the
    process environment). *)
Record Mail : Type := mkMail {
  to : Field;
  subject : string;
  text : string
}.

Record World : Type := mkWorld {
  db : Db;
  session : Session;
  outbox : list Mail
}.

(** What a request gets from outside the program. *)
Record Env : Type := mkEnv {
  drawn : Z;             (* Math.floor(100000 + Math.random() * 900000) *)
  now : Date;            (* new Date() *)
  new_oid : ObjectId;    (* the _id Mongoose gives the new document *)
  salt : N;              (* the salt bcrypt draws *)
  mail_accepted : bool;  (* does the transporter accept the mail? *)
  session_saved : bool   (* does req.session.save succeed? *)
}.

(** ** Responses *)

Inductive Locals : Type :=
| NoLocals
| Message (m : string)
| ErrorMessage (e : Exn)      (* the [message] of a thrown error *)
| OneNote (n : Note.t)
| Notes (ns : list Note.t).

Inductive Response : Type :=
| Redirect (url : string)
| Send (status : Z) (body : string)
| Render (status : Z) (view : string) (locals : Locals).

(** ** Handlers as computations: state, and exceptions that keep the state *)

Definition M (A : Type) : Type := World -> World * (Exn + A).

Definition ret {A} (a : A) : M A := fun w => (w, inr a).

Definition throw {A} (e : Exn) : M A := fun w => (w, inl e).

Definition bind {A B} (m : M A) (k : A -> M B) : M B :=
  fun w => match m w with
           | (w', inr a) => k a w'
           | (w', inl e) => (w', inl e)
           end.

Declare Scope handler_scope.
Delimit Scope handler_scope with handler.
Notation "x <- m ;; k" := (bind m (fun x => k))
  (at level 100, m at next level, right associativity) : handler_scope.
Notation "m ;; k" := (bind m (fun _ => k))
  (at level 100, right associativity) : handler_scope.
Local Open Scope handler_scope.

Definition get_db : M Db := fun w => (w, inr (db w)).
Definition get_session : M Session := fun w => (w, inr (session w)).

Definition put_db (d : Db) : M unit :=
  fun w => ({| db := d; session := session w; outbox := outbox w |}, inr tt).

Definition put_session (s : Session) : M unit :=
  fun w => ({| db := db w; session := s; outbox := outbox w |}, inr tt).

Definition lift {A} (r : Exn + A) : M A := fun w => (w, r).

(** The error middleware at the end of [app.js]: the errors thrown here
    carry no [status], so the page is rendered with status 500. *)
Definition error_handler (e : Exn) : Response :=
  Render 500 "404" (ErrorMessage e).

(** [asyncWrap(fn)]: a rejected handler is passed to the error middleware. *)
Definition asyncWrap (h : M Response) (w : World) : World * Response :=
  match h w with
  | (w', inr r) => (w', r)
  | (w', inl e) => (w', error_handler e)
  end.

(** [try { ... } catch (err) { ... }]. *)
Definition try_catch {A} (h : M A) (handler : Exn -> M A) : M A :=
  fun w => match h w with
           | (w', inl e) => handler e w'
           | r => r
           end.

(** ** Store operations inside a handler *)

Definition with_otps (d : Db) (c : list OTP.t) : Db :=
  {| users := users d; otps := c; notes := notes d |}.

Definition with_notes (d : Db) (c : list Note.t) : Db :=
  {| users := users d; otps := otps d; notes := c |}.

Definition with_users (d : Db) (c : list User.t) : Db :=
  {| users := c; otps := otps d; notes := notes d |}.

(** [await OTP.create({ userIdentifier, otp, createdAt })]. *)
Definition OTP_create (id : ObjectId) (email : Field) (code : string)
           (at_ : Date) : M OTP.t :=
  e <- lift (OTP.validate email) ;;
  d <- get_db ;;
  let r := OTP.mk id e code at_ in
  put_db (with_otps d (otps d ++ [r])) ;;
  ret r.

(** [await transporter.sendMail(m)]: the mail is handed over, or the call
    rejects. *)
Definition sendMail (accepted : bool) (m : Mail) : M unit :=
  fun w =>
    if accepted
    then ({| db := db w; session := session w; outbox := outbox w ++ [m] |},
          inr tt)
    else (w, inl MailError).

(** [req.session.save(callback)]: the session object of the request, with
    what the handler assigned to it, is written to the session store; when
    the store fails, the callback gets the error and the stored session is
    what it was. *)
Definition session_save (saved : bool) (s : Session) : M bool :=
  fun w =>
    if saved
    then ({| db := db w; session := s; outbox := outbox w |}, inr true)
    else (w, inr false).

(** A path parameter [:id] as Mongoose casts it for an [_id] filter. *)
Inductive Param : Type :=
| Oid (o : ObjectId)
| Malformed (s : string).

Definition cast (p : Param) : M ObjectId :=
  match p with
  | Oid o => ret o
  | Malformed s => throw (CastError s)
  end.

(** The number [n], as [n.toString()] prints it. *)
Definition toString (n : Z) : string := NilZero.string_of_int (Z.to_int n).

(** ** Notes routes *)

(** [requireLogin]: without [req.session.userId] the request is redirected;
    otherwise the route handler runs, here given the id it will read. *)
Definition requireLogin (next : ObjectId -> M Response) : M Response :=
  s <- get_session ;;
  match userId s with
  | None => ret (Redirect "/login")
  | Some uid => next uid
  end.

Definition not_found : Response :=
  Render 404 "404" (Message "Note not found!").

(** [GET /notes]. *)
Definition get_notes : World -> World * Response :=
  asyncWrap (requireLogin (fun uid =>
    d <- get_db ;;
    ret (Render 200 "notes/index.ejs" (Notes (Note.find uid (notes d)))))).

(** [POST /notes]. *)
Definition post_notes (env : Env) (ttl cnt : Field)
  : World -> World * Response :=
  asyncWrap (requireLogin (fun uid =>
    d <- get_db ;;
    let note := Note.mk (new_oid env) ttl cnt uid (now env) (now env) in
    put_db (with_notes d (notes d ++ [note])) ;;
    ret (Redirect "/notes"))).

(** [GET /notes/:id]: the handler has its own [try]/[catch]. *)
Definition get_note (id : Param) : World -> World * Response :=
  asyncWrap (requireLogin (fun uid =>
    try_catch
      (i <- cast id ;;
       d <- get_db ;;
       match Note.findOne i uid (notes d) with
       | None => ret not_found
       | Some note => ret (Render 200 "notes/show" (OneNote note))
       end)
      (fun _ => ret (Send 500 "Server error")))).

(** [GET /notes/:id/edit]. *)
Definition get_note_edit (id : Param) : World -> World * Response :=
  asyncWrap (requireLogin (fun uid =>
    i <- cast id ;;
    d <- get_db ;;
    match Note.findOne i uid (notes d) with
    | None => ret not_found
    | Some note => ret (Render 200 "notes/edit" (OneNote note))
    end)).

(** [PUT /notes/:id]. *)
Definition put_note (env : Env) (id : Param) (ttl cnt : Field)
  : World -> World * Response :=
  asyncWrap (requireLogin (fun uid =>
    i <- cast id ;;
    d <- get_db ;;
    let '(note, c) :=
      Note.findOneAndUpdate i uid ttl cnt (now env) (notes d) in
    put_db (with_notes d c) ;;
    match note with
    | None => ret not_found
    | Some _ => ret (Redirect "/notes")
    end)).

(** [DELETE /notes/:id]. *)
Definition delete_note (id : Param) : World -> World * Response :=
  asyncWrap (requireLogin (fun uid =>
    i <- cast id ;;
    d <- get_db ;;
    let '(note, c) := Note.findOneAndDelete i uid (notes d) in
    put_db (with_notes d c) ;;
    match note with
    | None => ret not_found
    | Some _ => ret (Redirect "/notes")
    end)).

(** ** Signup, verification, password, login *)

Definition otp_mail (email : Field) (otpCode : string) : Mail :=
  {| to := email;
     subject := "Your OTP Code";
     text := ("Your OTP is " ++ otpCode ++ ".")%string |}.

(** The tail of [POST /signup], common to both copies of [app.js]. *)
Definition request_otp (env : Env) (email : Field) : M Response :=
  let otpCode := toString (drawn env) in
  OTP_create (new_oid env) email otpCode (now env) ;;
  sendMail (mail_accepted env) (otp_mail email otpCode) ;;
  s <- get_session ;;
  saved <- session_save (session_saved env)
             {| userId := userId s;
                userIdentifier := email;
                tempUserIdentifier := tempUserIdentifier s |} ;;
  if saved
  then ret (Redirect "/verify-otp")
  else ret (Send 200 "Session error").

(** [POST /signup] of [NoteApp/app.js]. *)
Definition post_signup (env : Env) (email : Field)
  : World -> World * Response :=
  asyncWrap (request_otp env email).

(** The most recent OTP record of an email: [otpRecords[0]]. *)
Definition otpRecords (email : string) (d : Db) : list OTP.t :=
  OTP.sort_desc (OTP.find email (otps d)).

Definition latestOtp (email : string) (d : Db) : option OTP.t :=
  hd_error (otpRecords email d).

(** [POST /verify-otp]. *)
Definition post_verify_otp (otp : Field) : World -> World * Response :=
  asyncWrap (
    s <- get_session ;;
    match userIdentifier s with
    | Some email =>
        if (email =? "")%string
        then ret (Send 200 "Session expired or email not found.")
        else
          d <- get_db ;;
          match otpRecords email d with
          | [] => ret (Send 200 "No OTP record found.")
          | latest :: _ =>
              if negb (field_eqb (Some (OTP.otp latest)) otp)
              then ret (Send 200 "Invalid OTP")
              else
                put_db (with_otps d (OTP.deleteOne (OTP._id latest) (otps d))) ;;
                put_session {| userId := userId s;
                               userIdentifier := userIdentifier s;
                               tempUserIdentifier := Some email |} ;;
                ret (Redirect "/set-password")
          end
    | None => ret (Send 200 "Session expired or email not found.")
    end).

(** [GET /logout]. *)
Definition get_logout (w : World) : World * Response :=
  ({| db := db w; session := empty_session; outbox := outbox w |},
   Redirect "/login").

(** bcrypt, as the handlers call it. *)
Class Bcrypt : Type := {
  bcrypt_hash : string -> N -> N -> string;    (* data, rounds, salt *)
  bcrypt_compare : string -> string -> bool    (* data, hash *)
}.

Section Accounts.
Context {bc : Bcrypt}.

(** Whether the User schema declares [email] as required. *)
Variable email_required : bool.

(** [await bcrypt.hash(password, 12)]. *)
Definition hash (env : Env) (password : Field) : M string :=
  match password with
  | Some p => ret (bcrypt_hash p 12%N (salt env))
  | None => throw BcryptArgsError
  end.

(** [await bcrypt.compare(password, hash)]. *)
Definition compare (password : Field) (h : string) : M bool :=
  match password with
  | Some p => ret (bcrypt_compare p h)
  | None => throw BcryptArgsError
  end.

(** [await user.save()]. *)
Definition User_save (u : User.t) : M unit :=
  if email_required && negb (truthy (User.email u))
  then throw (ValidationError "User" "email")
  else d <- get_db ;; put_db (with_users d (users d ++ [u])).

(** [POST /set-password]. *)
Definition post_set_password (env : Env) (password : Field)
  : World -> World * Response :=
  asyncWrap (
    hashed <- hash env password ;;
    s <- get_session ;;
    let user := User.mk (new_oid env) (tempUserIdentifier s) hashed in
    User_save user ;;
    s <- get_session ;;
    put_session {| userId := Some (User._id user);
                   userIdentifier := userIdentifier s;
                   tempUserIdentifier := tempUserIdentifier s |} ;;
    ret (Redirect "/notes")).

(** [POST /login] of [NoteApp/app.js]. *)
Definition post_login (email password : Field)
  : World -> World * Response :=
  asyncWrap (
    d <- get_db ;;
    match User.findOne email (users d) with
    | None => ret (Send 200 "No user")
    | Some user =>
        valid <- compare password (User.password user) ;;
        if negb valid then ret (Send 200 "Invalid Password")
        else
          s <- get_session ;;
          put_session {| userId := Some (User._id user);
                         userIdentifier := userIdentifier s;
                         tempUserIdentifier := tempUserIdentifier s |} ;;
          ret (Redirect "/notes")
    end).
End Accounts.


(** ** The second copy of [app.js] *)

Module Variant.
(** [POST /signup]: an email that already has a User is turned away before
    anything else happens. *)
Definition post_signup (env : Env) (email : Field)
  : World -> World * Response :=
  asyncWrap (
    d <- get_db ;;
    match User.findOne email (users d) with
    | Some existingUser =>
        ret (Send 200 "Email already registered. Please login.")
    | None => request_otp env email
    end).

(** [POST /login]: the session is looked at once more before the
    redirect. *)
Definition post_login {bc : Bcrypt} (email password : Field)
  : World -> World * Response :=
  asyncWrap (
    d <- get_db ;;
    match User.findOne email (users d) with
    | None => ret (Send 200 "No user")
    | Some user =>
        valid <- compare password (User.password user) ;;
        if negb valid then ret (Send 200 "Invalid Password")
        else
          s <- get_session ;;
          put_session {| userId := Some (User._id user);
                         userIdentifier := userIdentifier s;
                         tempUserIdentifier := tempUserIdentifier s |} ;;
          s' <- get_session ;;
          match userId s' with
          | None => ret (Redirect "/login")
          | Some _ => ret (Redirect "/notes")
          end
    end).
End Variant.

(** ** The remaining routes, and the application as a whole *)

(** A handler that is not wrapped: Express itself passes what it throws to
    the error middleware. *)
Definition sync (h : M Response) (w : World) : World * Response :=
  match h w with
  | (w', inr r) => (w', r)
  | (w', inl e) => (w', error_handler e)
  end.

(** [GET /]. *)
Definition get_root (w : World) : World * Response :=
  (w, Redirect "/notes").

(** [GET /notes/new]. *)
Definition get_notes_new : World -> World * Response :=
  sync (requireLogin (fun _ => ret (Render 200 "notes/new" NoLocals))).

(** The four forms: [GET /signup], [/verify-otp], [/set-password],
    [/login]. *)
Definition get_form (view : string) (w : World) : World * Response :=
  (w, Render 200 view NoLocals).

(** The middleware after the last route. *)
Definition page_not_found (w : World) : World * Response :=
  (w, Render 404 "404" (Message "Page not found!")).

(** A request, by the route of [NoteApp/app.js] that serves it, with the
    inputs that route reads. *)
Inductive Request : Type :=
| GetRoot
| GetNotes
| GetNotesNew
| PostNotes (title content : Field)
| GetNote (id : Param)
| GetNoteEdit (id : Param)
| PutNote (id : Param) (title content : Field)
| DeleteNote (id : Param)
| GetSignup
| PostSignup (email : Field)
| GetVerifyOtp
| PostVerifyOtp (otp : Field)
| GetSetPassword
| PostSetPassword (password : Field)
| GetLogin
| PostLogin (email password : Field)
| GetLogout
| NoRoute.

Section Application.
Context {bc : Bcrypt}.

(** Whether the User schema declares [email] as required. *)
Variable email_required : bool.

(** The routes, in the order [app.js] registers them. *)
Definition app (env : Env) (req : Request) : World -> World * Response :=
  match req with
  | GetRoot => get_root
  | GetNotes => get_notes
  | GetNotesNew => get_notes_new
  | PostNotes ttl cnt => post_notes env ttl cnt
  | GetNote id => get_note id
  | GetNoteEdit id => get_note_edit id
  | PutNote id ttl cnt => put_note env id ttl cnt
  | DeleteNote id => delete_note id
  | GetSignup => get_form "auth/signup"
  | PostSignup email => post_signup env email
  | GetVerifyOtp => get_form "auth/verify-otp"
  | PostVerifyOtp otp => post_verify_otp otp
  | GetSetPassword => get_form "auth/set-password"
  | PostSetPassword password => post_set_password email_required env password
  | GetLogin => get_form "auth/login"
  | PostLogin email password => post_login email password
  | GetLogout => get_logout
  | NoRoute => page_not_found
  end.

(** The requests of one session, one after the other, each with what it
    gets from outside. *)
Fixpoint serve (reqs : list (Env * Request)) (w : World) : World :=
  match reqs with
  | [] => w
  | (env, req) :: reqs' => serve reqs' (fst (app env req w))
  end.
End Application.

(** ** Predicates on worlds *)

(** The notes a user does not own. *)
Definition foreign (uid : ObjectId) (c : list Note.t) : list Note.t :=
  filter (fun n => negb (Note.user n =? uid)%N) c.

(** The world with the notes of everybody but [uid] taken away. *)
Definition only_notes_of (uid : ObjectId) (w : World) : World :=
  {| db := with_notes (db w) (Note.find uid (notes (db w)));
     session := session w;
     outbox := outbox w |}.

(** A logged-in session names a User of the collection. *)
Definition session_user_exists (w : World) : Prop :=
  forall uid, userId (session w) = Some uid ->
              exists u, In u (users (db w)) /\ User._id u = uid.

(** Newest first. *)
Fixpoint sorted_desc (l : list OTP.t) : Prop :=
  match l with
  | [] => True
  | x :: l' =>
      (forall y, In y l' -> OTP.createdAt y <= OTP.createdAt x)
      /\ sorted_desc l'
  end.

(** The routes whose handlers contain a write to each part of the world:
    [note.save()], [findOneAndUpdate], [findOneAndDelete]; [OTP.create],
    [OTP.deleteOne]; [user.save()]; [sendMail]; an assignment to, or the
    destruction of, [req.session]. *)
Definition writes_notes (req : Request) : bool :=
  match req with
  | PostNotes _ _ | PutNote _ _ _ | DeleteNote _ => true
  | _ => false
  end.

Definition writes_otps (req : Request) : bool :=
  match req with
  | PostSignup _ | PostVerifyOtp _ => true
  | _ => false
  end.

Definition writes_users (req : Request) : bool :=
  match req with
  | PostSetPassword _ => true
  | _ => false
  end.

Definition sends_mail (req : Request) : bool :=
  match req with
  | PostSignup _ => true
  | _ => false
  end.

Definition writes_session (req : Request) : bool :=
  match req with
  | PostSignup _ | PostVerifyOtp _ | PostSetPassword _ | PostLogin _ _
  | GetLogout => true
  | _ => false
  end.

(** ** Worlds after a step, and what a request may touch *)

(** The session after a successful verification. *)
Definition verified (s : Session) (email : string) : Session :=
  {| userId := userId s;
     userIdentifier := userIdentifier s;
     tempUserIdentifier := Some email |}.

(** The session after a login or a password was set. *)
Definition authenticated (s : Session) (uid : ObjectId) : Session :=
  {| userId := Some uid;
     userIdentifier := userIdentifier s;
     tempUserIdentifier := tempUserIdentifier s |}.

(** The record [POST /signup] creates. *)
Definition issued (env : Env) (e : string) : OTP.t :=
  OTP.mk (new_oid env) e (toString (drawn env)) (now env).

(** The notes after a request, against the notes before: nothing changed, or
    one note with the requested id and the caller as owner was replaced in
    place ([Some n']) or taken out ([None]). *)
Definition touches_only (id uid : ObjectId) (before after : list Note.t)
  : Prop :=
  after = before \/
  exists l1 n l2,
    before = l1 ++ n :: l2 /\ Note._id n = id /\ Note.user n = uid /\
    (after = l1 ++ l2 \/
     exists n', after = l1 ++ n' :: l2 /\
                Note._id n' = id /\ Note.user n' = uid).

(** Everything but the notes is the same in both worlds. *)
Definition same_but_notes (w w' : World) : Prop :=
  users (db w') = users (db w) /\ otps (db w') = otps (db w) /\
  session w' = session w /\ outbox w' = outbox w.

(** ** Sample worlds *)

Module Sample.
Definition otp1 : OTP.t := OTP.mk 1%N "a@x.com" "111111" 1000.
Definition otp2 : OTP.t := OTP.mk 2%N "a@x.com" "222222" 2000.
Definition otp3 : OTP.t := OTP.mk 3%N "b@x.com" "333333" 1500.

(** A stale record that happens to carry the code of [otp2]. *)
Definition otp0 : OTP.t := OTP.mk 4%N "a@x.com" "222222" 500.

Definition note_a : Note.t := Note.mk 10%N (Some "A") (Some "of a") 100%N 5 5.
Definition note_b : Note.t := Note.mk 11%N (Some "B") (Some "of b") 200%N 6 6.

Definition user_a : User.t := User.mk 100%N (Some "a@x.com") "hash-a".
Definition user_b : User.t := User.mk 200%N (Some "b@x.com") "hash-b".

Definition store : Db :=
  {| users := [user_a; user_b];
     otps := [otp1; otp3; otp2];
     notes := [note_a; note_b] |}.

Definition pending (email : Field) : Session :=
  {| userId := None; userIdentifier := email; tempUserIdentifier := None |}.

Definition logged_in (uid : ObjectId) : Session :=
  {| userId := Some uid; userIdentifier := None;
     tempUserIdentifier := None |}.

(** A session that has asked for an OTP for [a@x.com]. *)
Definition w_pending : World :=
  {| db := store; session := pending (Some "a@x.com"); outbox := [] |}.

(** The same, with the colliding stale record in the store. *)
Definition w_collision : World :=
  {| db := with_otps store [otp0; otp2];
     session := pending (Some "a@x.com"); outbox := [] |}.

(** A session that never asked for an OTP. *)
Definition w_fresh : World :=
  {| db := store; session := empty_session; outbox := [] |}.

(** A session pending for an email no record was issued to. *)
Definition w_no_otp : World :=
  {| db := store; session := pending (Some "c@x.com"); outbox := [] |}.

(** User 200 is logged in. *)
Definition w_b : World :=
  {| db := store; session := logged_in 200%N; outbox := [] |}.

Definition env : Env :=
  {| drawn := 654321; now := 3000; new_oid := 50%N; salt := 7%N;
     mail_accepted := true; session_saved := true |}.

(** A toy bcrypt: the hash shows salt-free data, and comparison rebuilds
    it. *)
Definition toy_bcrypt : Bcrypt :=
  {| bcrypt_hash := fun data _ _ => ("hash-" ++ data)%string;
     bcrypt_compare := fun data h => (("hash-" ++ data)%string =? h)%string |}.
End Sample.

(** Inputs of the end-to-end runs. *)
Module Flow.
Definition env1 : Env :=
  {| drawn := 111111; now := 1000; new_oid := 1%N; salt := 7%N;
     mail_accepted := true; session_saved := true |}.

Definition env2 : Env :=
  {| drawn := 222222; now := 2000; new_oid := 2%N; salt := 8%N;
     mail_accepted := true; session_saved := true |}.

Definition env3 : Env :=
  {| drawn := 0; now := 3000; new_oid := 3%N; salt := 9%N;
     mail_accepted := true; session_saved := true |}.

Definition start : World :=
  {| db := {| users := []; otps := []; notes := [] |};
     session := empty_session; outbox := [] |}.

(** Two signups for the same email, one after the other. *)
Definition twice : World :=
  fst (post_signup env2 (Some "a@x.com")
         (fst (post_signup env1 (Some "a@x.com") start))).
End Flow.

(** * Properties *)

(** ** Fields *)

Lemma field_eqb_eq (a b : Field) : field_eqb a b = true <-> a = b.
Proof.
  destruct a as [x|], b as [y|]; simpl; try (split; congruence).
  rewrite String.eqb_eq. split; congruence.
Qed.

Lemma field_eqb_refl (a : Field) : field_eqb a a = true.
Proof. now apply field_eqb_eq. Qed.

(** ** Lists of OTP records *)

Lemma OTP_eq_dec (a b : OTP.t) : {a = b} + {a <> b}.
Proof.
  decide equality; auto using Z.eq_dec, N.eq_dec, string_dec.
Qed.

Lemma find_In (email : string) (c : list OTP.t) (r : OTP.t) :
  In r (OTP.find email c) <-> In r c /\ OTP.userIdentifier r = email.
Proof.
  unfold OTP.find. rewrite filter_In, String.eqb_eq. tauto.
Qed.

Lemma hd_insert_desc (a : OTP.t) (s : list OTP.t) :
  hd_error (OTP.insert_desc a s) =
  Some (match hd_error s with
        | None => a
        | Some x => if OTP.createdAt x <? OTP.createdAt a then a else x
        end).
Proof.
  destruct s as [|x s]; simpl; [reflexivity|].
  destruct (OTP.createdAt x <? OTP.createdAt a); reflexivity.
Qed.

(** The head of the sorted list is a record of the list that no record of the
    list is more recent than. *)
Lemma hd_sort_desc (l : list OTP.t) :
  match hd_error (OTP.sort_desc l) with
  | None => l = []
  | Some r => In r l /\ forall x, In x l -> OTP.createdAt x <= OTP.createdAt r
  end.
Proof.
  induction l as [|a l IH]; simpl; [reflexivity|].
  rewrite hd_insert_desc.
  destruct (hd_error (OTP.sort_desc l)) as [r|].
  - destruct IH as [Hin Hmax].
    destruct (Z.ltb_spec (OTP.createdAt r) (OTP.createdAt a)).
    + split; [now left|]. intros x [<-|Hx]; [lia|].
      specialize (Hmax x Hx). lia.
    + split; [now right|]. intros x [<-|Hx]; [lia|]. now apply Hmax.
  - subst l. split; [now left|]. intros x [<-|[]]. lia.
Qed.

(** A record strictly more recent than every other record of the list is the
    head of the sorted list, however the sort orders equal dates. *)
Lemma hd_sort_desc_newest (l : list OTP.t) (r : OTP.t) :
  In r l ->
  (forall x, In x l -> x <> r -> OTP.createdAt x < OTP.createdAt r) ->
  hd_error (OTP.sort_desc l) = Some r.
Proof.
  intros Hin Hnew. pose proof (hd_sort_desc l) as H.
  destruct (hd_error (OTP.sort_desc l)) as [r'|].
  - destruct H as [Hin' Hmax].
    destruct (OTP_eq_dec r' r) as [->|Hne]; [reflexivity|].
    specialize (Hnew r' Hin' Hne). specialize (Hmax r Hin). lia.
  - subst l. destruct Hin.
Qed.

(** What [latestOtp] returns is a record of that email with the greatest
    [createdAt] among the records of that email. *)
Lemma latestOtp_spec (email : string) (d : Db) (r : OTP.t) :
  latestOtp email d = Some r ->
  In r (otps d) /\ OTP.userIdentifier r = email /\
  forall x, In x (otps d) -> OTP.userIdentifier x = email ->
            OTP.createdAt x <= OTP.createdAt r.
Proof.
  unfold latestOtp, otpRecords. intros H.
  pose proof (hd_sort_desc (OTP.find email (otps d))) as Hs.
  rewrite H in Hs. destruct Hs as [Hin Hmax].
  apply find_In in Hin. destruct Hin as [Hin Hid].
  repeat split; auto. intros x Hx Hxe. apply Hmax. now apply find_In.
Qed.

Lemma latestOtp_newest (email : string) (d : Db) (r : OTP.t) :
  In r (otps d) -> OTP.userIdentifier r = email ->
  (forall x, In x (otps d) -> OTP.userIdentifier x = email -> x <> r ->
             OTP.createdAt x < OTP.createdAt r) ->
  latestOtp email d = Some r.
Proof.
  intros Hin Hid Hnew. unfold latestOtp, otpRecords.
  apply hd_sort_desc_newest.
  - now apply find_In.
  - intros x Hx Hne. apply find_In in Hx. destruct Hx. now apply Hnew.
Qed.

Lemma latestOtp_none (email : string) (d : Db) :
  latestOtp email d = None <->
  forall r, In r (otps d) -> OTP.userIdentifier r <> email.
Proof.
  unfold latestOtp, otpRecords.
  pose proof (hd_sort_desc (OTP.find email (otps d))) as Hs. split.
  - intros H r Hin Hid. rewrite H in Hs.
    assert (Hr : In r (OTP.find email (otps d))) by now apply find_In.
    rewrite Hs in Hr. destruct Hr.
  - intros H. destruct (hd_error _) as [r|]; [|reflexivity].
    destruct Hs as [Hin _]. apply find_In in Hin. destruct Hin as [Hin Hid].
    now destruct (H r Hin).
Qed.

(** With unique ids, [deleteOne] takes out the record it is given the id of,
    and nothing else. *)
Lemma deleteOne_unique (c : list OTP.t) (r : OTP.t) :
  NoDup (map OTP._id c) -> In r c ->
  exists l1 l2, c = l1 ++ r :: l2 /\ OTP.deleteOne (OTP._id r) c = l1 ++ l2.
Proof.
  induction c as [|x c IH]; simpl; intros Hnd Hin; [destruct Hin|].
  inversion Hnd as [|? ? Hx Hnd']; subst.
  destruct Hin as [->|Hin].
  - rewrite N.eqb_refl. now exists [], c.
  - destruct (N.eqb_spec (OTP._id x) (OTP._id r)) as [E|_].
    + exfalso. apply Hx. rewrite E. now apply in_map.
    + destruct (IH Hnd' Hin) as (l1 & l2 & -> & Hdel).
      exists (x :: l1), l2. simpl. now rewrite Hdel.
Qed.

(** ** Running [POST /verify-otp] *)

Lemma verify_otp_run (otp : Field) (w : World) (email : string) :
  userIdentifier (session w) = Some email -> email <> "" ->
  post_verify_otp otp w =
  match latestOtp email (db w) with
  | None => (w, Send 200 "No OTP record found.")
  | Some latest =>
      if field_eqb (Some (OTP.otp latest)) otp
      then ({| db := with_otps (db w)
                       (OTP.deleteOne (OTP._id latest) (otps (db w)));
               session := verified (session w) email;
               outbox := outbox w |},
            Redirect "/set-password")
      else (w, Send 200 "Invalid OTP")
  end.
Proof.
  intros Hs He. apply String.eqb_neq in He.
  unfold post_verify_otp, asyncWrap, bind, get_session, get_db, latestOtp.
  rewrite Hs, He.
  destruct (otpRecords email (db w)) as [|latest rest];
    cbn [hd_error]; [reflexivity|].
  destruct (field_eqb (Some (OTP.otp latest)) otp); cbn; [|reflexivity].
  unfold verified. now rewrite Hs.
Qed.

(** ** The newest record decides *)

(** C1, as the code has it: when the session has a pending email and [newest]
    is the record of that email with the strictly greatest [createdAt],
    submitting the code of [newest] succeeds and consumes [newest], and
    submitting the code of an older record of that email fails with
    "Invalid OTP", leaving everything as it was, provided that code differs
    from the code of [newest]. *)
Theorem verify_otp_latest_wins (w : World) (email : string) (newest : OTP.t) :
  userIdentifier (session w) = Some email -> email <> "" ->
  In newest (otps (db w)) -> OTP.userIdentifier newest = email ->
  (forall r, In r (otps (db w)) -> OTP.userIdentifier r = email ->
             r <> newest -> OTP.createdAt r < OTP.createdAt newest) ->
  post_verify_otp (Some (OTP.otp newest)) w =
    ({| db := with_otps (db w)
                (OTP.deleteOne (OTP._id newest) (otps (db w)));
        session := verified (session w) email;
        outbox := outbox w |},
     Redirect "/set-password")
  /\
  forall older,
    In older (otps (db w)) -> OTP.userIdentifier older = email ->
    OTP.createdAt older < OTP.createdAt newest ->
    OTP.otp older <> OTP.otp newest ->
    post_verify_otp (Some (OTP.otp older)) w = (w, Send 200 "Invalid OTP").
Proof.
  intros Hs He Hin Hid Hnew.
  pose proof (latestOtp_newest email (db w) newest Hin Hid Hnew) as Hl.
  split.
  - rewrite (verify_otp_run _ w email Hs He), Hl.
    simpl. now rewrite String.eqb_refl.
  - intros older _ _ _ Hcode.
    rewrite (verify_otp_run _ w email Hs He), Hl. simpl.
    destruct (String.eqb_spec (OTP.otp newest) (OTP.otp older)); congruence.
Qed.

Lemma verify_otp_latest_wins_witness :
  snd (post_verify_otp (Some "222222") Sample.w_pending)
    = Redirect "/set-password" /\
  post_verify_otp (Some "111111") Sample.w_pending
    = (Sample.w_pending, Send 200 "Invalid OTP").
Proof.
  assert (Hnew : forall r, In r (otps (db Sample.w_pending)) ->
                   OTP.userIdentifier r = "a@x.com" -> r <> Sample.otp2 ->
                   OTP.createdAt r < OTP.createdAt Sample.otp2).
  { intros r Hin Hid Hne. simpl in Hin.
    destruct Hin as [<-|[<-|[<-|[]]]].
    - reflexivity.
    - discriminate Hid.
    - now destruct Hne. }
  destruct (verify_otp_latest_wins Sample.w_pending "a@x.com" Sample.otp2
              eq_refl ltac:(discriminate)
              ltac:(simpl; tauto) eq_refl Hnew) as [Hgood Hstale].
  split.
  - change (Some "222222") with (Some (OTP.otp Sample.otp2)).
    now rewrite Hgood.
  - apply (Hstale Sample.otp1); simpl; try tauto; try reflexivity.
    discriminate.
Defined.

(** C1 as stated fails when a stale record carries the code of the newest
    one: [otp0] is older than [otp2] and was never consumed, yet submitting
    its code verifies the session instead of giving "Invalid OTP". *)
Lemma stale_code_accepted_on_collision :
  In Sample.otp0 (otps (db Sample.w_collision)) /\
  In Sample.otp2 (otps (db Sample.w_collision)) /\
  OTP.userIdentifier Sample.otp0 = OTP.userIdentifier Sample.otp2 /\
  OTP.createdAt Sample.otp0 < OTP.createdAt Sample.otp2 /\
  snd (post_verify_otp (Some (OTP.otp Sample.otp0)) Sample.w_collision)
    = Redirect "/set-password" /\
  snd (post_verify_otp (Some (OTP.otp Sample.otp0)) Sample.w_collision)
    <> Send 200 "Invalid OTP".
Proof.
  repeat split; simpl; try tauto; try reflexivity.
  vm_compute. discriminate.
Qed.

(** ** A correct code consumes one record *)

(** C2, as the code has it: when the submitted code is the code of the most
    recent record of the pending email, exactly that record leaves the OTP
    collection (ids being unique), users and notes are untouched, and the
    session gets [tempUserIdentifier] set to the email; [userId] is not
    written and [userIdentifier] stays in the session. *)
Theorem verify_otp_consumes_latest (w : World) (email : string)
        (latest : OTP.t) (otp : Field) :
  userIdentifier (session w) = Some email -> email <> "" ->
  latestOtp email (db w) = Some latest ->
  otp = Some (OTP.otp latest) ->
  NoDup (map OTP._id (otps (db w))) ->
  exists l1 l2,
    otps (db w) = l1 ++ latest :: l2 /\
    post_verify_otp otp w =
      ({| db := {| users := users (db w);
                   otps := l1 ++ l2;
                   notes := notes (db w) |};
          session := {| userId := userId (session w);
                        userIdentifier := Some email;
                        tempUserIdentifier := Some email |};
          outbox := outbox w |},
       Redirect "/set-password").
Proof.
  intros Hs He Hl -> Hnd.
  destruct (latestOtp_spec _ _ _ Hl) as (Hin & _ & _).
  destruct (deleteOne_unique _ _ Hnd Hin) as (l1 & l2 & Hc & Hdel).
  exists l1, l2. split; [exact Hc|].
  rewrite (verify_otp_run _ w email Hs He), Hl. simpl.
  rewrite String.eqb_refl, Hdel. unfold verified, with_otps.
  now rewrite Hs.
Qed.

Lemma verify_otp_consumes_latest_witness :
  exists l1 l2,
    otps (db Sample.w_pending) = l1 ++ Sample.otp2 :: l2 /\
    post_verify_otp (Some "222222") Sample.w_pending =
      ({| db := {| users := users Sample.store;
                   otps := l1 ++ l2;
                   notes := notes Sample.store |};
          session := {| userId := None;
                        userIdentifier := Some "a@x.com";
                        tempUserIdentifier := Some "a@x.com" |};
          outbox := [] |},
       Redirect "/set-password").
Proof.
  apply (verify_otp_consumes_latest Sample.w_pending "a@x.com" Sample.otp2
           (Some "222222")).
  - reflexivity.
  - discriminate.
  - reflexivity.
  - reflexivity.
  - simpl. repeat constructor; simpl; intuition discriminate.
Defined.

(** C2 as stated fails on the session: after a successful verification the
    pending email is still in the session, next to the verified one. *)
Lemma pending_identity_kept_after_verification :
  let w' := fst (post_verify_otp (Some "222222") Sample.w_pending) in
  snd (post_verify_otp (Some "222222") Sample.w_pending)
    = Redirect "/set-password" /\
  tempUserIdentifier (session w') = Some "a@x.com" /\
  userIdentifier (session w') = Some "a@x.com" /\
  userIdentifier (session w') <> None.
Proof.
  vm_compute. repeat split; discriminate.
Qed.

(** ** A wrong code changes nothing *)

(** C4: when the session has a pending email with at least one record and the
    submitted code is not the code of the most recent one, the answer is
    "Invalid OTP" and the world after the request is the world before it: no
    record is deleted and no session key is written. *)
Theorem verify_otp_mismatch (w : World) (email : string) (latest : OTP.t)
        (otp : Field) :
  userIdentifier (session w) = Some email -> email <> "" ->
  latestOtp email (db w) = Some latest ->
  otp <> Some (OTP.otp latest) ->
  post_verify_otp otp w = (w, Send 200 "Invalid OTP").
Proof.
  intros Hs He Hl Hne.
  rewrite (verify_otp_run _ w email Hs He), Hl.
  destruct (field_eqb (Some (OTP.otp latest)) otp) eqn:E; [|reflexivity].
  apply field_eqb_eq in E. congruence.
Qed.

Lemma verify_otp_mismatch_witness :
  post_verify_otp (Some "000000") Sample.w_pending
    = (Sample.w_pending, Send 200 "Invalid OTP").
Proof.
  apply (verify_otp_mismatch Sample.w_pending "a@x.com" Sample.otp2).
  - reflexivity.
  - discriminate.
  - reflexivity.
  - discriminate.
Defined.

(** ** No pending email, no record *)

(** C7: without a pending email in the session the answer is "Session expired
    or email not found."; with one, but no record of that email in the
    collection, it is "No OTP record found."; either way the world is left as
    it was. *)
Theorem verify_otp_nothing_to_check (w : World) (otp : Field) :
  (truthy (userIdentifier (session w)) = false ->
   post_verify_otp otp w
     = (w, Send 200 "Session expired or email not found."))
  /\
  (forall email,
     userIdentifier (session w) = Some email -> email <> "" ->
     (forall r, In r (otps (db w)) -> OTP.userIdentifier r <> email) ->
     post_verify_otp otp w = (w, Send 200 "No OTP record found.")).
Proof.
  split.
  - unfold truthy, post_verify_otp, asyncWrap, bind, get_session.
    destruct (userIdentifier (session w)) as [e|]; [|reflexivity].
    destruct (e =? "")%string; [reflexivity|discriminate].
  - intros email Hs He Hnone.
    rewrite (verify_otp_run _ w email Hs He).
    apply latestOtp_none in Hnone. now rewrite Hnone.
Qed.

Lemma verify_otp_nothing_to_check_witness :
  post_verify_otp (Some "222222") Sample.w_fresh
    = (Sample.w_fresh, Send 200 "Session expired or email not found.") /\
  post_verify_otp (Some "222222") Sample.w_no_otp
    = (Sample.w_no_otp, Send 200 "No OTP record found.").
Proof.
  split.
  - apply (proj1 (verify_otp_nothing_to_check Sample.w_fresh _)).
    reflexivity.
  - apply (proj2 (verify_otp_nothing_to_check Sample.w_no_otp _) "c@x.com").
    + reflexivity.
    + discriminate.
    + intros r Hin. simpl in Hin.
      destruct Hin as [<-|[<-|[<-|[]]]]; discriminate.
Defined.

(** ** Requesting an OTP *)

Lemma signup_run (env : Env) (e : string) (w : World) :
  e <> "" ->
  post_signup env (Some e) w =
  let d := with_otps (db w) (otps (db w) ++ [issued env e]) in
  let o := outbox w ++ [otp_mail (Some e) (OTP.otp (issued env e))] in
  if mail_accepted env
  then if session_saved env
       then ({| db := d;
                session := {| userId := userId (session w);
                              userIdentifier := Some e;
                              tempUserIdentifier :=
                                tempUserIdentifier (session w) |};
                outbox := o |},
             Redirect "/verify-otp")
       else ({| db := d; session := session w; outbox := o |},
             Send 200 "Session error")
  else ({| db := d; session := session w; outbox := outbox w |},
        error_handler MailError).
Proof.
  intros He. apply String.eqb_neq in He.
  unfold post_signup, request_otp, asyncWrap, OTP_create, bind, lift,
    OTP.validate, sendMail, session_save, get_db, put_db, get_session, ret.
  rewrite He. cbn.
  destruct (mail_accepted env); cbn; [|reflexivity].
  destruct (session_saved env); reflexivity.
Qed.

(** The OTP collection after a signup with a non-empty email. *)
Lemma signup_otps (env : Env) (e : string) (w : World) :
  e <> "" ->
  otps (db (fst (post_signup env (Some e) w)))
    = otps (db w) ++ [issued env e].
Proof.
  intros He. rewrite (signup_run env e w He). cbn zeta.
  now destruct (mail_accepted env), (session_saved env).
Qed.

(** An email that fails the schema's [required] check creates nothing. *)
Lemma signup_invalid_email (env : Env) (email : Field) (w : World) :
  truthy email = false ->
  post_signup env email w
    = (w, error_handler (ValidationError "OTP" "userIdentifier")).
Proof.
  unfold truthy, post_signup, request_otp, asyncWrap, OTP_create, bind, lift,
    OTP.validate.
  destruct email as [e|]; [|reflexivity].
  destruct (e =? "")%string; [reflexivity|discriminate].
Qed.

Lemma find_app (e : string) (c1 c2 : list OTP.t) :
  OTP.find e (c1 ++ c2) = OTP.find e c1 ++ OTP.find e c2.
Proof. apply filter_app. Qed.

(** C5, as the code has it: a signup with a non-empty email appends exactly
    one record to the OTP collection, carrying that email, so the number of
    records of that email grows by one (records issued earlier stay); users
    and notes are untouched; and the mail handed to the transporter, if it
    accepts one, goes to that email and contains the code of the new
    record. *)
Theorem signup_adds_one_record (env : Env) (e : string) (w : World) :
  e <> "" ->
  let w' := fst (post_signup env (Some e) w) in
  let r := issued env e in
  otps (db w') = otps (db w) ++ [r] /\
  OTP.userIdentifier r = e /\
  length (OTP.find e (otps (db w')))
    = S (length (OTP.find e (otps (db w)))) /\
  users (db w') = users (db w) /\ notes (db w') = notes (db w) /\
  outbox w' =
    outbox w ++
    (if mail_accepted env
     then [ {| to := Some e;
               subject := "Your OTP Code";
               text := ("Your OTP is " ++ OTP.otp r ++ ".")%string |} ]
     else []).
Proof.
  intros He w' r. subst w'. rewrite (signup_run env e w He). cbn zeta.
  assert (Hlen : length (OTP.find e (otps (db w) ++ [r]))
                 = S (length (OTP.find e (otps (db w))))).
  { rewrite find_app, length_app. simpl.
    rewrite String.eqb_refl. simpl. lia. }
  destruct (mail_accepted env), (session_saved env); cbn;
    rewrite ?app_nil_r; repeat split; auto.
Qed.

Lemma signup_adds_one_record_witness :
  let w' := fst (post_signup Sample.env (Some "c@x.com") Sample.w_fresh) in
  length (OTP.find "c@x.com" (otps (db w'))) = 1%nat /\
  outbox w' = [ {| to := Some "c@x.com";
                   subject := "Your OTP Code";
                   text := "Your OTP is 654321." |} ].
Proof.
  destruct (signup_adds_one_record Sample.env "c@x.com" Sample.w_fresh
              ltac:(discriminate)) as (_ & _ & Hlen & _ & _ & Hmail).
  split; [exact Hlen | exact Hmail].
Defined.

(** C5 as stated fails when the email already has a record: after a second
    signup for [a@x.com] the collection holds three records of that email,
    not one. *)
Lemma second_signup_leaves_several_records :
  let w' := fst (post_signup Sample.env (Some "a@x.com") Sample.w_pending) in
  snd (post_signup Sample.env (Some "a@x.com") Sample.w_pending)
    = Redirect "/verify-otp" /\
  length (OTP.find "a@x.com" (otps (db w'))) = 3%nat /\
  length (OTP.find "a@x.com" (otps (db w'))) <> 1%nat.
Proof.
  vm_compute. repeat split; discriminate.
Qed.

(** ** Signup in the second copy of [app.js] *)

Lemma User_findOne_spec (e : Field) (c : list User.t) (u : User.t) :
  User.findOne e c = Some u -> In u c /\ User.email u = e.
Proof.
  unfold User.findOne. intros H. apply find_some in H.
  destruct H as [Hin Heq]. apply field_eqb_eq in Heq. now split.
Qed.

Lemma User_findOne_none (e : Field) (c : list User.t) :
  User.findOne e c = None <-> forall u, In u c -> User.email u <> e.
Proof.
  unfold User.findOne. split.
  - intros H u Hin Heq. pose proof (find_none _ _ H u Hin) as Hf.
    simpl in Hf. apply field_eqb_eq in Heq. congruence.
  - intros H. destruct (find _ c) as [u|] eqn:E; [|reflexivity].
    apply find_some in E. destruct E as [Hin Heq].
    apply field_eqb_eq in Heq. now destruct (H u Hin).
Qed.

Lemma User_findOne_exists (e : Field) (c : list User.t) :
  (exists u, In u c /\ User.email u = e) ->
  exists u', User.findOne e c = Some u'.
Proof.
  intros (u & Hin & Heq).
  destruct (User.findOne e c) as [u'|] eqn:E; [now exists u'|].
  rewrite User_findOne_none in E. now destruct (E u Hin).
Qed.

(** Whatever [POST /signup] of [NoteApp/app.js] answers, it is not the
    "already registered" message. *)
Lemma signup_never_says_registered (env : Env) (email : Field) (w : World) :
  snd (post_signup env email w)
    <> Send 200 "Email already registered. Please login.".
Proof.
  destruct (truthy email) eqn:T.
  - destruct email as [e|]; [|discriminate T].
    assert (He : e <> "").
    { intros ->. discriminate T. }
    rewrite (signup_run env e w He). cbn zeta.
    destruct (mail_accepted env), (session_saved env); discriminate.
  - rewrite (signup_invalid_email env email w T). discriminate.
Qed.

(** C10: in the copy of [app.js] that looks the email up first, a signup with
    an email some User has is answered "Email already registered. Please
    login." and leaves the world as it was: no OTP record, no mail, no
    pending email in the session.  [NoteApp/app.js] answers the same request
    differently. *)
Theorem variant_signup_rejects_registered (env : Env) (email : Field)
        (w : World) :
  (exists u, In u (users (db w)) /\ User.email u = email) ->
  Variant.post_signup env email w
    = (w, Send 200 "Email already registered. Please login.") /\
  post_signup env email w <> Variant.post_signup env email w.
Proof.
  intros Hex. apply User_findOne_exists in Hex. destruct Hex as [u Hu].
  assert (Hv : Variant.post_signup env email w
               = (w, Send 200 "Email already registered. Please login.")).
  { unfold Variant.post_signup, asyncWrap, bind, get_db. now rewrite Hu. }
  split; [exact Hv|].
  rewrite Hv. intros Heq.
  apply (signup_never_says_registered env email w). now rewrite Heq.
Qed.

Lemma variant_signup_rejects_registered_witness :
  Variant.post_signup Sample.env (Some "a@x.com") Sample.w_fresh
    = (Sample.w_fresh, Send 200 "Email already registered. Please login.") /\
  post_signup Sample.env (Some "a@x.com") Sample.w_fresh
    <> Variant.post_signup Sample.env (Some "a@x.com") Sample.w_fresh.
Proof.
  apply (variant_signup_rejects_registered Sample.env (Some "a@x.com")
           Sample.w_fresh).
  exists Sample.user_a. split; [simpl; tauto | reflexivity].
Defined.

(** X24: when no User has the submitted email, the two copies of
    [POST /signup] give the same response and the same world. *)
Lemma variant_signup_agrees_on_new_email (env : Env) (email : Field)
      (w : World) :
  (forall u, In u (users (db w)) -> User.email u <> email) ->
  Variant.post_signup env email w = post_signup env email w.
Proof.
  intros H. apply User_findOne_none in H.
  unfold Variant.post_signup, post_signup, asyncWrap, bind, get_db.
  now rewrite H.
Qed.

Lemma variant_signup_agrees_on_new_email_witness :
  Variant.post_signup Sample.env (Some "c@x.com") Sample.w_fresh
    = post_signup Sample.env (Some "c@x.com") Sample.w_fresh.
Proof.
  apply (variant_signup_agrees_on_new_email Sample.env (Some "c@x.com")
           Sample.w_fresh).
  intros u Hin. simpl in Hin. destruct Hin as [<-|[<-|[]]]; discriminate.
Defined.

(** ** Login *)

(** C8: [POST /login] answers "No user" when no User has the submitted email;
    "Invalid Password" when a User has it and bcrypt's comparison of the
    submitted password with that User's hash is false; and when the
    comparison is true it stores that User's id as [userId] in the session
    and redirects to the notes.  The OTP collection, the mails and the other
    session keys are neither consulted nor changed. *)
Theorem login_outcomes {bc : Bcrypt} (email password : Field) (w : World) :
  ((forall u, In u (users (db w)) -> User.email u <> email) ->
   post_login email password w = (w, Send 200 "No user"))
  /\
  (forall user p,
     User.findOne email (users (db w)) = Some user -> password = Some p ->
     bcrypt_compare p (User.password user) = false ->
     post_login email password w = (w, Send 200 "Invalid Password"))
  /\
  (forall user p,
     User.findOne email (users (db w)) = Some user -> password = Some p ->
     bcrypt_compare p (User.password user) = true ->
     post_login email password w =
       ({| db := db w;
           session := authenticated (session w) (User._id user);
           outbox := outbox w |},
        Redirect "/notes")).
Proof.
  unfold post_login, asyncWrap, bind, get_db, compare.
  split; [|split].
  - intros H. apply User_findOne_none in H. now rewrite H.
  - intros user p Hu -> Hc. rewrite Hu. cbn. now rewrite Hc.
  - intros user p Hu -> Hc. rewrite Hu. cbn. now rewrite Hc.
Qed.

Lemma login_outcomes_witness :
  post_login (bc := Sample.toy_bcrypt) (Some "c@x.com") (Some "a")
             Sample.w_fresh
    = (Sample.w_fresh, Send 200 "No user") /\
  post_login (bc := Sample.toy_bcrypt) (Some "a@x.com") (Some "b")
             Sample.w_fresh
    = (Sample.w_fresh, Send 200 "Invalid Password") /\
  post_login (bc := Sample.toy_bcrypt) (Some "a@x.com") (Some "a")
             Sample.w_fresh
    = ({| db := Sample.store;
          session := Sample.logged_in 100%N;
          outbox := [] |},
       Redirect "/notes").
Proof.
  split; [|split].
  - apply (proj1 (login_outcomes (bc := Sample.toy_bcrypt)
                    (Some "c@x.com") (Some "a") Sample.w_fresh)).
    intros u Hin. simpl in Hin. destruct Hin as [<-|[<-|[]]]; discriminate.
  - apply (proj1 (proj2 (login_outcomes (bc := Sample.toy_bcrypt)
                           (Some "a@x.com") (Some "b") Sample.w_fresh))
             Sample.user_a "b"); reflexivity.
  - apply (proj2 (proj2 (login_outcomes (bc := Sample.toy_bcrypt)
                           (Some "a@x.com") (Some "a") Sample.w_fresh))
             Sample.user_a "a"); reflexivity.
Defined.

(** A request without a password makes bcrypt throw; nothing is changed. *)
Lemma login_without_password {bc : Bcrypt} (email : Field) (w : World)
      (user : User.t) :
  User.findOne email (users (db w)) = Some user ->
  post_login email None w = (w, error_handler BcryptArgsError).
Proof.
  intros Hu. unfold post_login, asyncWrap, bind, get_db, compare.
  now rewrite Hu.
Qed.

(** X23: the extra look at the session in the second copy of [POST /login]
    never fires: on every input the two copies of the route give the same
    response and the same world. *)
Lemma variant_login_same {bc : Bcrypt} (email password : Field) (w : World) :
  Variant.post_login email password w = post_login email password w.
Proof.
  unfold Variant.post_login, post_login, asyncWrap, bind, get_db, compare.
  destruct (User.findOne email (users (db w))) as [user|]; [|reflexivity].
  destruct password as [p|]; [|reflexivity]. cbn.
  destruct (bcrypt_compare p (User.password user)); reflexivity.
Qed.

(** ** Setting a password *)

(** The handler itself never looks at [tempUserIdentifier].  With a User
    schema that accepts a missing email, a session that verified nothing
    gets a User without an email stored, is logged in as that User and is
    redirected to the notes. *)
Lemma set_password_without_verification {bc : Bcrypt} (env : Env)
        (p : string) (d : Db) (out : list Mail) :
  post_set_password false env (Some p)
    {| db := d; session := empty_session; outbox := out |}
  = ({| db := {| users := users d
                          ++ [User.mk (new_oid env) None
                                (bcrypt_hash p 12%N (salt env))];
                 otps := otps d;
                 notes := notes d |};
        session := {| userId := Some (new_oid env);
                      userIdentifier := None;
                      tempUserIdentifier := None |};
        outbox := out |},
     Redirect "/notes").
Proof. reflexivity. Qed.




(** After a verification the handler creates the User of the verified
    email. *)
Lemma set_password_after_verification {bc : Bcrypt} (required : bool)
      (env : Env) (p e : string) (w : World) :
  tempUserIdentifier (session w) = Some e -> e <> "" ->
  post_set_password required env (Some p) w
  = ({| db := with_users (db w)
                (users (db w)
                 ++ [User.mk (new_oid env) (Some e)
                       (bcrypt_hash p 12%N (salt env))]);
        session := authenticated (session w) (new_oid env);
        outbox := outbox w |},
     Redirect "/notes").
Proof.
  intros Ht He. apply String.eqb_neq in He.
  unfold post_set_password, asyncWrap, bind, hash, ret, get_session,
    User_save, truthy.
  cbn. rewrite Ht, He. cbn. now rewrite andb_false_r.
Qed.

(** ** Notes: the compound filter *)

Lemma matches_true (id uid : ObjectId) (n : Note.t) :
  Note.matches id uid n = true <-> Note._id n = id /\ Note.user n = uid.
Proof.
  unfold Note.matches. rewrite andb_true_iff, !N.eqb_eq. tauto.
Qed.

Lemma Note_findOne_none (id uid : ObjectId) (c : list Note.t) :
  Note.findOne id uid c = None <->
  forall n, In n c -> ~ (Note._id n = id /\ Note.user n = uid).
Proof.
  unfold Note.findOne. split.
  - intros H n Hin Hm. apply matches_true in Hm.
    pose proof (find_none _ _ H n Hin). congruence.
  - intros H. destruct (find _ c) as [n|] eqn:E; [|reflexivity].
    apply find_some in E. destruct E as [Hin Hm].
    apply matches_true in Hm. now destruct (H n Hin).
Qed.

(** What [findOneAndUpdate] and [findOneAndDelete] return is decided by
    [findOne]; when it finds nothing the collection is returned as it is. *)
Lemma findOneAndUpdate_fst (id uid : ObjectId) (ttl cnt : Field) (t : Date)
      (c : list Note.t) :
  fst (Note.findOneAndUpdate id uid ttl cnt t c)
    = option_map (Note.set_fields ttl cnt t) (Note.findOne id uid c).
Proof.
  unfold Note.findOne.
  induction c as [|n c IH]; simpl; [reflexivity|].
  destruct (Note.matches id uid n); [reflexivity|].
  destruct (Note.findOneAndUpdate id uid ttl cnt t c). exact IH.
Qed.

Lemma findOneAndDelete_fst (id uid : ObjectId) (c : list Note.t) :
  fst (Note.findOneAndDelete id uid c) = Note.findOne id uid c.
Proof.
  unfold Note.findOne.
  induction c as [|n c IH]; simpl; [reflexivity|].
  destruct (Note.matches id uid n); [reflexivity|].
  destruct (Note.findOneAndDelete id uid c). exact IH.
Qed.

(** The one note an update may touch: the collection is unchanged, or one
    note with the requested id and owner is replaced in place by a note with
    the same id and owner. *)
Lemma findOneAndUpdate_frame (id uid : ObjectId) (ttl cnt : Field) (t : Date)
      (c : list Note.t) :
  Note.findOneAndUpdate id uid ttl cnt t c = (None, c) \/
  exists l1 n l2,
    c = l1 ++ n :: l2 /\ Note._id n = id /\ Note.user n = uid /\
    Note.findOneAndUpdate id uid ttl cnt t c
      = (Some (Note.set_fields ttl cnt t n),
         l1 ++ Note.set_fields ttl cnt t n :: l2).
Proof.
  induction c as [|x c IH]; simpl; [now left|].
  destruct (Note.matches id uid x) eqn:Hm.
  - right. apply matches_true in Hm. destruct Hm.
    now exists [], x, c.
  - destruct IH as [->|(l1 & n & l2 & -> & Hi & Hu & ->)]; [now left|].
    right. now exists (x :: l1), n, l2.
Qed.

(** The one note a delete may remove. *)
Lemma findOneAndDelete_frame (id uid : ObjectId) (c : list Note.t) :
  Note.findOneAndDelete id uid c = (None, c) \/
  exists l1 n l2,
    c = l1 ++ n :: l2 /\ Note._id n = id /\ Note.user n = uid /\
    Note.findOneAndDelete id uid c = (Some n, l1 ++ l2).
Proof.
  induction c as [|x c IH]; simpl; [now left|].
  destruct (Note.matches id uid x) eqn:Hm.
  - right. apply matches_true in Hm. destruct Hm.
    now exists [], x, c.
  - destruct IH as [->|(l1 & n & l2 & -> & Hi & Hu & ->)]; [now left|].
    right. now exists (x :: l1), n, l2.
Qed.

Lemma findOneAndUpdate_none (id uid : ObjectId) (ttl cnt : Field) (t : Date)
      (c : list Note.t) :
  Note.findOne id uid c = None ->
  Note.findOneAndUpdate id uid ttl cnt t c = (None, c).
Proof.
  intros H.
  destruct (findOneAndUpdate_frame id uid ttl cnt t c)
    as [E|(l1 & n & l2 & _ & _ & _ & E)]; [exact E|].
  pose proof (findOneAndUpdate_fst id uid ttl cnt t c) as F.
  rewrite E, H in F. discriminate F.
Qed.

Lemma findOneAndDelete_none (id uid : ObjectId) (c : list Note.t) :
  Note.findOne id uid c = None ->
  Note.findOneAndDelete id uid c = (None, c).
Proof.
  intros H.
  destruct (findOneAndDelete_frame id uid c)
    as [E|(l1 & n & l2 & _ & _ & _ & E)]; [exact E|].
  pose proof (findOneAndDelete_fst id uid c) as F.
  rewrite E, H in F. discriminate F.
Qed.

Lemma world_eta (w : World) :
  {| db := with_notes (db w) (notes (db w));
     session := session w; outbox := outbox w |} = w.
Proof. destruct w as [[us os ns] s o]. reflexivity. Qed.

(** A request for a note the caller has no match for: all four routes answer
    with the not-found page and leave the world as it was. *)
Lemma no_match_not_found (env : Env) (w : World) (uid i : ObjectId)
      (ttl cnt : Field) :
  userId (session w) = Some uid ->
  Note.findOne i uid (notes (db w)) = None ->
  get_note (Oid i) w = (w, not_found) /\
  get_note_edit (Oid i) w = (w, not_found) /\
  put_note env (Oid i) ttl cnt w = (w, not_found) /\
  delete_note (Oid i) w = (w, not_found).
Proof.
  intros Hs Hf.
  unfold get_note, get_note_edit, put_note, delete_note, asyncWrap,
    requireLogin, try_catch, bind, get_session, get_db, cast, ret, put_db.
  rewrite Hs, Hf, (findOneAndUpdate_none _ _ _ _ _ _ Hf),
    (findOneAndDelete_none _ _ _ Hf).
  cbn. rewrite world_eta. repeat split; reflexivity.
Qed.

(** C6: for a logged-in caller and a note owned by someone else, reading,
    opening for edit, updating or deleting that note's id gives exactly what
    the same request gives for an id no note has: the not-found page with
    status 404, and an unchanged world. *)
Theorem foreign_note_looks_absent (env : Env) (w : World) (uid : ObjectId)
        (n : Note.t) (absent : ObjectId) (ttl cnt : Field) :
  userId (session w) = Some uid ->
  NoDup (map Note._id (notes (db w))) ->
  In n (notes (db w)) -> Note.user n <> uid ->
  (forall m, In m (notes (db w)) -> Note._id m <> absent) ->
  (get_note (Oid (Note._id n)) w = (w, not_found) /\
   get_note (Oid absent) w = (w, not_found)) /\
  (get_note_edit (Oid (Note._id n)) w = (w, not_found) /\
   get_note_edit (Oid absent) w = (w, not_found)) /\
  (put_note env (Oid (Note._id n)) ttl cnt w = (w, not_found) /\
   put_note env (Oid absent) ttl cnt w = (w, not_found)) /\
  (delete_note (Oid (Note._id n)) w = (w, not_found) /\
   delete_note (Oid absent) w = (w, not_found)).
Proof.
  intros Hs Hnd Hin Hown Habs.
  assert (Hforeign : Note.findOne (Note._id n) uid (notes (db w)) = None).
  { apply Note_findOne_none. intros m Hm [Hid Hu].
    assert (m = n); [|congruence].
    clear - Hnd Hin Hm Hid.
    induction (notes (db w)) as [|x c IH]; [destruct Hin|].
    inversion Hnd as [|? ? Hx Hnd']; subst.
    destruct Hin as [->|Hin], Hm as [->|Hm]; auto.
    - exfalso. apply Hx. rewrite <- Hid. now apply in_map.
    - exfalso. apply Hx. rewrite Hid. now apply in_map. }
  assert (Habsent : Note.findOne absent uid (notes (db w)) = None).
  { apply Note_findOne_none. intros m Hm [Hid _]. exact (Habs m Hm Hid). }
  destruct (no_match_not_found env w uid _ ttl cnt Hs Hforeign)
    as (G1 & E1 & P1 & D1).
  destruct (no_match_not_found env w uid _ ttl cnt Hs Habsent)
    as (G2 & E2 & P2 & D2).
  repeat split; assumption.
Qed.

Lemma foreign_note_looks_absent_witness :
  get_note (Oid 10%N) Sample.w_b = get_note (Oid 99%N) Sample.w_b /\
  put_note Sample.env (Oid 10%N) (Some "x") (Some "y") Sample.w_b
    = put_note Sample.env (Oid 99%N) (Some "x") (Some "y") Sample.w_b /\
  delete_note (Oid 10%N) Sample.w_b = (Sample.w_b, not_found) /\
  delete_note (Oid 99%N) Sample.w_b = (Sample.w_b, not_found).
Proof.
  destruct (foreign_note_looks_absent Sample.env Sample.w_b 200%N
              Sample.note_a 99%N (Some "x") (Some "y"))
    as ((G1 & G2) & _ & (P1 & P2) & (D1 & D2)).
  - reflexivity.
  - simpl. repeat constructor; simpl; intuition discriminate.
  - simpl. tauto.
  - discriminate.
  - intros m Hm. simpl in Hm. destruct Hm as [<-|[<-|[]]]; discriminate.
  - simpl in G1, P1, D1.
    rewrite G1, G2, P1, P2. repeat split; assumption.
Defined.

(** ** Notes: what an update or a delete leaves alone *)

(** C9: a PUT or a DELETE on [/notes/:id] changes at most one note, and that
    note has the requested id and the session's user as owner; every other
    note, all users, all OTP records, the session and the mails are as they
    were, whatever the response.  A request that is not logged in, or whose
    id is malformed, changes nothing at all. *)
Theorem note_write_frame (env : Env) (id : Param) (ttl cnt : Field)
        (w : World) :
  let frame w' :=
    same_but_notes w w' /\
    (notes (db w') = notes (db w) \/
     exists i uid, id = Oid i /\ userId (session w) = Some uid /\
                   touches_only i uid (notes (db w)) (notes (db w'))) in
  frame (fst (put_note env id ttl cnt w)) /\
  frame (fst (delete_note id w)).
Proof.
  cbn zeta. unfold same_but_notes, put_note, delete_note, asyncWrap,
    requireLogin, bind, get_session, get_db, cast, ret, throw, put_db.
  destruct (userId (session w)) as [uid|] eqn:Hs;
    [|cbn; repeat split; auto].
  destruct id as [i|s]; [|cbn; repeat split; auto].
  split.
  - destruct (findOneAndUpdate_frame i uid ttl cnt (now env) (notes (db w)))
      as [E|(l1 & n & l2 & Hc & Hi & Hu & E)]; rewrite E; cbn.
    + repeat split; auto.
    + repeat split; auto. right. exists i, uid. repeat split; auto.
      right. exists l1, n, l2. repeat split; auto.
      right. exists (Note.set_fields ttl cnt (now env) n).
      repeat split; auto.
  - destruct (findOneAndDelete_frame i uid (notes (db w)))
      as [E|(l1 & n & l2 & Hc & Hi & Hu & E)]; rewrite E; cbn.
    + repeat split; auto.
    + repeat split; auto. right. exists i, uid. repeat split; auto.
      right. exists l1, n, l2. repeat split; auto.
Qed.

(** An id Mongoose cannot cast is not a not-found: the read route answers
    from its own [catch], the write routes through the error middleware. *)
Lemma malformed_id_is_an_error (env : Env) (w : World) (uid : ObjectId)
      (s : string) (ttl cnt : Field) :
  userId (session w) = Some uid ->
  get_note (Malformed s) w = (w, Send 500 "Server error") /\
  put_note env (Malformed s) ttl cnt w = (w, error_handler (CastError s)) /\
  delete_note (Malformed s) w = (w, error_handler (CastError s)).
Proof.
  intros Hs.
  unfold get_note, put_note, delete_note, asyncWrap, requireLogin,
    try_catch, bind, get_session, cast, throw.
  rewrite Hs. repeat split; reflexivity.
Qed.

(** [requireLogin] turns away a session without [userId]. *)
Lemma not_logged_in_redirects (env : Env) (w : World) (id : Param)
      (ttl cnt : Field) :
  userId (session w) = None ->
  get_note id w = (w, Redirect "/login") /\
  put_note env id ttl cnt w = (w, Redirect "/login") /\
  delete_note id w = (w, Redirect "/login").
Proof.
  intros Hs.
  unfold get_note, put_note, delete_note, asyncWrap, requireLogin, bind,
    get_session.
  rewrite Hs. repeat split; reflexivity.
Qed.

(** ** Unique ids are kept *)

Lemma deleteOne_incl (id : ObjectId) (c : list OTP.t) :
  incl (OTP.deleteOne id c) c.
Proof.
  induction c as [|x c IH]; simpl; [apply incl_refl|].
  destruct (OTP._id x =? id)%N.
  - apply incl_tl, incl_refl.
  - apply incl_cons; [now left|]. now apply incl_tl.
Qed.

Lemma deleteOne_NoDup (id : ObjectId) (c : list OTP.t) :
  NoDup (map OTP._id c) -> NoDup (map OTP._id (OTP.deleteOne id c)).
Proof.
  induction c as [|x c IH]; simpl; intros Hnd; [exact Hnd|].
  inversion Hnd as [|? ? Hx Hnd']; subst.
  destruct (OTP._id x =? id)%N; [exact Hnd'|].
  simpl. constructor; [|now apply IH].
  intros Hin. apply Hx. apply in_map_iff in Hin.
  destruct Hin as (y & Hy & Hiny). apply in_map_iff. exists y.
  split; [exact Hy|]. now apply (deleteOne_incl id c).
Qed.

(** X12: a verification never breaks the uniqueness of OTP ids, and a signup
    keeps it when the id of the new record is not in use. *)
Lemma unique_otp_ids_kept (env : Env) (e : string) (otp : Field)
      (w : World) :
  NoDup (map OTP._id (otps (db w))) ->
  NoDup (map OTP._id (otps (db (fst (post_verify_otp otp w))))) /\
  (e <> "" -> ~ In (new_oid env) (map OTP._id (otps (db w))) ->
   NoDup (map OTP._id (otps (db (fst (post_signup env (Some e) w)))))).
Proof.
  intros Hnd. split.
  - unfold post_verify_otp, asyncWrap, bind, get_session, get_db.
    destruct (userIdentifier (session w)) as [email|]; [|exact Hnd].
    destruct (email =? "")%string; [exact Hnd|].
    destruct (otpRecords email (db w)) as [|latest rest]; [exact Hnd|].
    destruct (negb _); [exact Hnd|]. cbn. now apply deleteOne_NoDup.
  - intros He Hfresh.
    rewrite (signup_otps env e w He), map_app. simpl.
    apply NoDup_app; [exact Hnd | repeat constructor; intros [] |].
    intros x Hx [<-|[]]. exact (Hfresh Hx).
Qed.

Lemma unique_otp_ids_kept_witness :
  NoDup (map OTP._id
           (otps (db (fst (post_verify_otp (Some "222222")
                             Sample.w_pending))))) /\
  NoDup (map OTP._id
           (otps (db (fst (post_signup Sample.env (Some "a@x.com")
                             Sample.w_pending))))).
Proof.
  destruct (unique_otp_ids_kept Sample.env "a@x.com" (Some "222222")
              Sample.w_pending) as [Hv Hsg].
  - simpl. repeat constructor; simpl; intuition discriminate.
  - split; [exact Hv|]. apply Hsg; [discriminate|].
    simpl. intuition discriminate.
Defined.

(** ** The flow, end to end *)

(** Signup, verification, password: one record is created and consumed, one
    User is created with the verified email, and the new User has no
    notes. *)
Example signup_verify_set_password :
  let w1 := fst (post_signup Flow.env1 (Some "a@x.com") Flow.start) in
  let w2 := fst (post_verify_otp (Some "111111") w1) in
  let w3 := fst (post_set_password (bc := Sample.toy_bcrypt) false Flow.env3
                   (Some "secret") w2) in
  length (otps (db w1)) = 1%nat /\
  otps (db w2) = [] /\
  tempUserIdentifier (session w2) = Some "a@x.com" /\
  userId (session w2) = None /\
  users (db w3) = [User.mk 3%N (Some "a@x.com") "hash-secret"] /\
  userId (session w3) = Some 3%N /\
  snd (get_notes w3) = Render 200 "notes/index.ejs" (Notes []).
Proof. vm_compute. repeat split; reflexivity. Qed.

(** Two signups leave two records; the second code verifies, the first does
    not. *)
Example two_signups_newest_code :
  length (otps (db Flow.twice)) = 2%nat /\
  snd (post_verify_otp (Some "222222") Flow.twice)
    = Redirect "/set-password" /\
  post_verify_otp (Some "111111") Flow.twice
    = (Flow.twice, Send 200 "Invalid OTP").
Proof. vm_compute. repeat split; reflexivity. Qed.

(** * More of the application *)

(** ** The notes routes, step by step *)

Lemma get_notes_run (w : World) (uid : ObjectId) :
  userId (session w) = Some uid ->
  get_notes w
    = (w, Render 200 "notes/index.ejs" (Notes (Note.find uid (notes (db w))))).
Proof.
  intros Hs. unfold get_notes, asyncWrap, requireLogin, bind, get_session,
    get_db, ret.
  now rewrite Hs.
Qed.

Lemma post_notes_run (env : Env) (ttl cnt : Field) (w : World)
      (uid : ObjectId) :
  userId (session w) = Some uid ->
  post_notes env ttl cnt w
    = ({| db := with_notes (db w)
                  (notes (db w)
                   ++ [Note.mk (new_oid env) ttl cnt uid (now env) (now env)]);
          session := session w;
          outbox := outbox w |},
       Redirect "/notes").
Proof.
  intros Hs. unfold post_notes, asyncWrap, requireLogin, bind, get_session,
    get_db, put_db, ret.
  now rewrite Hs.
Qed.

Lemma get_note_run (w : World) (uid i : ObjectId) :
  userId (session w) = Some uid ->
  get_note (Oid i) w
    = (w, match Note.findOne i uid (notes (db w)) with
          | None => not_found
          | Some note => Render 200 "notes/show" (OneNote note)
          end) /\
  get_note_edit (Oid i) w
    = (w, match Note.findOne i uid (notes (db w)) with
          | None => not_found
          | Some note => Render 200 "notes/edit" (OneNote note)
          end).
Proof.
  intros Hs. unfold get_note, get_note_edit, asyncWrap, requireLogin,
    try_catch, bind, get_session, get_db, cast, ret.
  rewrite Hs. cbn.
  destruct (Note.findOne i uid (notes (db w))); split; reflexivity.
Qed.

Lemma put_note_run (env : Env) (ttl cnt : Field) (w : World)
      (uid i : ObjectId) :
  userId (session w) = Some uid ->
  put_note env (Oid i) ttl cnt w
    = ({| db := with_notes (db w)
                  (snd (Note.findOneAndUpdate i uid ttl cnt (now env)
                          (notes (db w))));
          session := session w;
          outbox := outbox w |},
       match Note.findOne i uid (notes (db w)) with
       | None => not_found
       | Some _ => Redirect "/notes"
       end).
Proof.
  intros Hs.
  pose proof (findOneAndUpdate_fst i uid ttl cnt (now env) (notes (db w)))
    as F.
  unfold put_note, asyncWrap, requireLogin, bind, get_session, get_db,
    put_db, cast, ret.
  rewrite Hs. cbn.
  destruct (Note.findOneAndUpdate i uid ttl cnt (now env) (notes (db w)))
    as [r c]. cbn in F |- *. subst r.
  destruct (Note.findOne i uid (notes (db w))); reflexivity.
Qed.

Lemma delete_note_run (w : World) (uid i : ObjectId) :
  userId (session w) = Some uid ->
  delete_note (Oid i) w
    = ({| db := with_notes (db w)
                  (snd (Note.findOneAndDelete i uid (notes (db w))));
          session := session w;
          outbox := outbox w |},
       match Note.findOne i uid (notes (db w)) with
       | None => not_found
       | Some _ => Redirect "/notes"
       end).
Proof.
  intros Hs.
  pose proof (findOneAndDelete_fst i uid (notes (db w))) as F.
  unfold delete_note, asyncWrap, requireLogin, bind, get_session, get_db,
    put_db, cast, ret.
  rewrite Hs. cbn.
  destruct (Note.findOneAndDelete i uid (notes (db w))) as [r c].
  cbn in F |- *. subst r.
  destruct (Note.findOne i uid (notes (db w))); reflexivity.
Qed.

(** ** Lists of notes *)

Lemma Note_find_In (uid : ObjectId) (c : list Note.t) (n : Note.t) :
  In n (Note.find uid c) <-> In n c /\ Note.user n = uid.
Proof.
  unfold Note.find. rewrite filter_In, N.eqb_eq. tauto.
Qed.

Lemma Note_findOne_some (i uid : ObjectId) (c : list Note.t) (n : Note.t) :
  Note.findOne i uid c = Some n ->
  In n c /\ Note._id n = i /\ Note.user n = uid.
Proof.
  unfold Note.findOne. intros H. apply find_some in H.
  destruct H as [Hin Hm]. apply matches_true in Hm. tauto.
Qed.

(** With unique ids, the note [findOne] returns for an id and its owner is
    the note of the collection that has this id. *)
Lemma Note_findOne_unique (c : list Note.t) (n : Note.t) :
  NoDup (map Note._id c) -> In n c ->
  Note.findOne (Note._id n) (Note.user n) c = Some n.
Proof.
  unfold Note.findOne.
  induction c as [|x c IH]; simpl; intros Hnd Hin; [destruct Hin|].
  inversion Hnd as [|? ? Hx Hnd']; subst.
  destruct Hin as [->|Hin].
  - unfold Note.matches. now rewrite !N.eqb_refl.
  - destruct (Note.matches (Note._id n) (Note.user n) x) eqn:Hm;
      [|now apply IH].
    apply matches_true in Hm. destruct Hm as [Hid _].
    exfalso. apply Hx. rewrite Hid. now apply in_map.
Qed.

Lemma Note_findOne_app_fresh (i uid : ObjectId) (c : list Note.t)
      (n : Note.t) :
  ~ In i (map Note._id c) ->
  Note.findOne i uid (c ++ [n])
    = if Note.matches i uid n then Some n else None.
Proof.
  unfold Note.findOne. intros Hfresh.
  induction c as [|x c IH]; simpl; [reflexivity|].
  destruct (Note.matches i uid x) eqn:Hm.
  - apply matches_true in Hm. destruct Hm as [Hid _].
    exfalso. apply Hfresh. simpl. now left.
  - apply IH. intros Hin. apply Hfresh. simpl. now right.
Qed.

Lemma Note_findOne_owned (i uid : ObjectId) (c : list Note.t) :
  Note.findOne i uid (Note.find uid c) = Note.findOne i uid c.
Proof.
  unfold Note.findOne, Note.find.
  induction c as [|x c IH]; simpl; [reflexivity|].
  destruct (N.eqb_spec (Note.user x) uid) as [E|E]; simpl.
  - now rewrite IH.
  - rewrite IH. unfold Note.matches.
    destruct (N.eqb_spec (Note.user x) uid); [contradiction|].
    now rewrite andb_false_r.
Qed.

Lemma Note_find_idem (uid : ObjectId) (c : list Note.t) :
  Note.find uid (Note.find uid c) = Note.find uid c.
Proof.
  unfold Note.find. induction c as [|x c IH]; simpl; [reflexivity|].
  destruct (Note.user x =? uid)%N eqn:E; simpl; [|exact IH].
  now rewrite E, IH.
Qed.

(** After an update the first match is the updated note. *)
Lemma findOne_after_update (i uid : ObjectId) (ttl cnt : Field) (t : Date)
      (c : list Note.t) :
  Note.findOne i uid (snd (Note.findOneAndUpdate i uid ttl cnt t c))
    = option_map (Note.set_fields ttl cnt t) (Note.findOne i uid c).
Proof.
  unfold Note.findOne.
  induction c as [|x c IH]; simpl; [reflexivity|].
  destruct (Note.matches i uid x) eqn:Hm; simpl.
  - unfold Note.matches in *. simpl. now rewrite Hm.
  - destruct (Note.findOneAndUpdate i uid ttl cnt t c) as [r c'].
    simpl in *. now rewrite Hm.
Qed.

(** An update keeps the ids, in their order. *)
Lemma update_keeps_ids (i uid : ObjectId) (ttl cnt : Field) (t : Date)
      (c : list Note.t) :
  map Note._id (snd (Note.findOneAndUpdate i uid ttl cnt t c))
    = map Note._id c.
Proof.
  induction c as [|x c IH]; simpl; [reflexivity|].
  destruct (Note.matches i uid x); [reflexivity|].
  destruct (Note.findOneAndUpdate i uid ttl cnt t c) as [r c'].
  simpl in *. now rewrite IH.
Qed.

(** With unique ids, a delete that finds [n] leaves the notes other than
    [n]; none of them has the id of [n]. *)
Lemma delete_unique (i uid : ObjectId) (c : list Note.t) (n : Note.t) :
  NoDup (map Note._id c) -> Note.findOne i uid c = Some n ->
  (forall m, In m (snd (Note.findOneAndDelete i uid c))
             <-> In m c /\ m <> n) /\
  ~ In i (map Note._id (snd (Note.findOneAndDelete i uid c))).
Proof.
  unfold Note.findOne.
  induction c as [|x c IH]; simpl; intros Hnd Hf; [discriminate|].
  inversion Hnd as [|? ? Hx Hnd']; subst.
  destruct (Note.matches i uid x) eqn:Hm.
  - injection Hf as ->. apply matches_true in Hm. destruct Hm as [Hid _].
    simpl. split.
    + intros m. split.
      * intros Hin. split; [now right|]. intros ->. apply Hx.
        now apply in_map.
      * intros [[<-|Hin] Hne]; [now destruct Hne | exact Hin].
    + now rewrite <- Hid.
  - destruct (IH Hnd' Hf) as [Hiff Hnone].
    destruct (Note.findOneAndDelete i uid c) as [r c']. simpl in *.
    split.
    + intros m. rewrite Hiff. split.
      * intros [<-|[Hin Hne]]; [|tauto].
        split; [now left|]. intros ->.
        apply find_some in Hf. destruct Hf as [Hin _].
        apply Hx. now apply in_map.
      * intros [[<-|Hin] Hne]; [now left | right; tauto].
    + intros [Hid|Hin]; [|contradiction].
      apply find_some in Hf. destruct Hf as [Hin Hmn].
      apply matches_true in Hmn. destruct Hmn as [Hn _].
      apply Hx. rewrite Hid, <- Hn. now apply in_map.
Qed.

(** ** Notes: login, listing, reading back *)

(** X1: in a session without [userId], each of the seven notes routes
    redirects to [/login] and leaves the world as it was: nothing is read
    from or written to the collections. *)
Theorem notes_routes_require_login (env : Env) (w : World) (id : Param)
        (ttl cnt : Field) :
  userId (session w) = None ->
  get_notes w = (w, Redirect "/login") /\
  get_notes_new w = (w, Redirect "/login") /\
  post_notes env ttl cnt w = (w, Redirect "/login") /\
  get_note id w = (w, Redirect "/login") /\
  get_note_edit id w = (w, Redirect "/login") /\
  put_note env id ttl cnt w = (w, Redirect "/login") /\
  delete_note id w = (w, Redirect "/login").
Proof.
  intros Hs.
  unfold get_notes, get_notes_new, post_notes, get_note, get_note_edit,
    put_note, delete_note, asyncWrap, sync, requireLogin, bind, get_session.
  rewrite Hs. repeat split; reflexivity.
Qed.

Lemma notes_routes_require_login_witness :
  post_notes Sample.env (Some "t") (Some "c") Sample.w_fresh
    = (Sample.w_fresh, Redirect "/login") /\
  delete_note (Oid 10%N) Sample.w_fresh = (Sample.w_fresh, Redirect "/login").
Proof.
  destruct (notes_routes_require_login Sample.env Sample.w_fresh (Oid 10%N)
              (Some "t") (Some "c") eq_refl)
    as (_ & _ & Hpost & _ & _ & _ & Hdel).
  split; [exact Hpost | exact Hdel].
Defined.

(** X2: [GET /notes] of a logged-in session renders the index with exactly
    the notes of the collection whose owner is the session's user, and
    leaves the world as it was. *)
Theorem get_notes_lists_own_notes (w : World) (uid : ObjectId) :
  userId (session w) = Some uid ->
  exists l,
    get_notes w = (w, Render 200 "notes/index.ejs" (Notes l)) /\
    forall n, In n l <-> In n (notes (db w)) /\ Note.user n = uid.
Proof.
  intros Hs. exists (Note.find uid (notes (db w))).
  split; [now apply get_notes_run|]. intros n. apply Note_find_In.
Qed.

Lemma get_notes_lists_own_notes_witness :
  exists l,
    get_notes Sample.w_b = (Sample.w_b, Render 200 "notes/index.ejs" (Notes l))
    /\ forall n, In n l <-> In n (notes (db Sample.w_b))
                            /\ Note.user n = 200%N.
Proof.
  apply (get_notes_lists_own_notes Sample.w_b 200%N). reflexivity.
Defined.

(** X3: ids being unique, a note of the collection is rendered to its owner
    by [GET /notes/:id] and by [GET /notes/:id/edit] under its own id, and
    the world is left as it was. *)
Theorem owned_note_is_shown (w : World) (n : Note.t) :
  userId (session w) = Some (Note.user n) ->
  NoDup (map Note._id (notes (db w))) ->
  In n (notes (db w)) ->
  get_note (Oid (Note._id n)) w
    = (w, Render 200 "notes/show" (OneNote n)) /\
  get_note_edit (Oid (Note._id n)) w
    = (w, Render 200 "notes/edit" (OneNote n)).
Proof.
  intros Hs Hnd Hin.
  destruct (get_note_run w (Note.user n) (Note._id n) Hs) as [G E].
  rewrite G, E, (Note_findOne_unique _ _ Hnd Hin). now split.
Qed.

Lemma owned_note_is_shown_witness :
  get_note (Oid 11%N) Sample.w_b
    = (Sample.w_b, Render 200 "notes/show" (OneNote Sample.note_b)) /\
  get_note_edit (Oid 11%N) Sample.w_b
    = (Sample.w_b, Render 200 "notes/edit" (OneNote Sample.note_b)).
Proof.
  apply (owned_note_is_shown Sample.w_b Sample.note_b).
  - reflexivity.
  - simpl. repeat constructor; simpl; intuition discriminate.
  - simpl. tauto.
Defined.

(** X4: [POST /notes] of a logged-in session appends one note with the
    submitted title and content, the session's user as owner and the current
    date as both timestamps, and redirects to [/notes].  When the new id is
    not in use, [GET /notes/:id] with that id then shows this note, and
    [GET /notes] lists it after the notes the user had. *)
Theorem created_note_is_shown (env : Env) (w : World) (uid : ObjectId)
        (ttl cnt : Field) :
  userId (session w) = Some uid ->
  ~ In (new_oid env) (map Note._id (notes (db w))) ->
  let note := Note.mk (new_oid env) ttl cnt uid (now env) (now env) in
  let w' := fst (post_notes env ttl cnt w) in
  post_notes env ttl cnt w
    = ({| db := with_notes (db w) (notes (db w) ++ [note]);
          session := session w; outbox := outbox w |},
       Redirect "/notes") /\
  get_note (Oid (new_oid env)) w'
    = (w', Render 200 "notes/show" (OneNote note)) /\
  get_notes w'
    = (w', Render 200 "notes/index.ejs"
             (Notes (Note.find uid (notes (db w)) ++ [note]))).
Proof.
  intros Hs Hfresh note w'. subst w'.
  rewrite (post_notes_run env ttl cnt w uid Hs). cbn [fst].
  split; [reflexivity|]. split.
  - match goal with |- get_note _ ?W = _ =>
      destruct (get_note_run W uid (new_oid env) Hs) as [G _] end.
    rewrite G. cbn [db notes with_notes].
    rewrite (Note_findOne_app_fresh _ _ _ _ Hfresh).
    unfold Note.matches. cbn. now rewrite !N.eqb_refl.
  - match goal with |- get_notes ?W = _ =>
      rewrite (get_notes_run W uid Hs) end.
    cbn [db notes with_notes]. unfold Note.find.
    rewrite filter_app. cbn. now rewrite N.eqb_refl.
Qed.

Lemma created_note_is_shown_witness :
  let note := Note.mk 50%N (Some "t") (Some "c") 200%N 3000 3000 in
  let w' := fst (post_notes Sample.env (Some "t") (Some "c") Sample.w_b) in
  get_note (Oid 50%N) w' = (w', Render 200 "notes/show" (OneNote note)) /\
  get_notes w'
    = (w', Render 200 "notes/index.ejs" (Notes [Sample.note_b; note])).
Proof.
  destruct (created_note_is_shown Sample.env Sample.w_b 200%N
              (Some "t") (Some "c") eq_refl)
    as (_ & Hget & Hlist).
  - simpl. intuition discriminate.
  - split; [exact Hget | exact Hlist].
Defined.

(** X5: when the session's user owns a note with the requested id,
    [PUT /notes/:id] redirects to [/notes], and [GET /notes/:id] then shows
    that note with the submitted title and content (a field that was not
    submitted keeps its value), the current date as [updatedAt], and its id,
    owner and [createdAt] as before.  The ids of the collection are the
    same, in the same order. *)
Theorem updated_note_is_shown (env : Env) (w : World) (uid i : ObjectId)
        (n : Note.t) (ttl cnt : Field) :
  userId (session w) = Some uid ->
  Note.findOne i uid (notes (db w)) = Some n ->
  let w' := fst (put_note env (Oid i) ttl cnt w) in
  snd (put_note env (Oid i) ttl cnt w) = Redirect "/notes" /\
  get_note (Oid i) w'
    = (w', Render 200 "notes/show"
             (OneNote {| Note._id := Note._id n;
                         Note.title := match ttl with
                                       | Some _ => ttl
                                       | None => Note.title n
                                       end;
                         Note.content := match cnt with
                                         | Some _ => cnt
                                         | None => Note.content n
                                         end;
                         Note.user := Note.user n;
                         Note.createdAt := Note.createdAt n;
                         Note.updatedAt := now env |})) /\
  map Note._id (notes (db w')) = map Note._id (notes (db w)).
Proof.
  intros Hs Hf w'. subst w'.
  rewrite (put_note_run env ttl cnt w uid i Hs), Hf. cbn [fst snd].
  split; [reflexivity|]. split.
  - match goal with |- get_note _ ?W = _ =>
      destruct (get_note_run W uid i Hs) as [G _] end.
    rewrite G. cbn [db notes with_notes].
    now rewrite findOne_after_update, Hf.
  - cbn [db notes with_notes]. apply update_keeps_ids.
Qed.

Lemma updated_note_is_shown_witness :
  let w' := fst (put_note Sample.env (Oid 11%N) (Some "B2") None
                   Sample.w_b) in
  snd (put_note Sample.env (Oid 11%N) (Some "B2") None Sample.w_b)
    = Redirect "/notes" /\
  get_note (Oid 11%N) w'
    = (w', Render 200 "notes/show"
             (OneNote (Note.mk 11%N (Some "B2") (Some "of b") 200%N 6 3000))).
Proof.
  destruct (updated_note_is_shown Sample.env Sample.w_b 200%N 11%N
              Sample.note_b (Some "B2") None eq_refl eq_refl)
    as (Hput & Hget & _).
  split; [exact Hput | exact Hget].
Defined.

(** X6: ids being unique, when the session's user owns a note with the
    requested id, [DELETE /notes/:id] redirects to [/notes] and takes out
    that note and no other; reading or deleting the same id again gives the
    not-found page. *)
Theorem deleted_note_is_gone (w : World) (uid i : ObjectId) (n : Note.t) :
  userId (session w) = Some uid ->
  NoDup (map Note._id (notes (db w))) ->
  Note.findOne i uid (notes (db w)) = Some n ->
  let w' := fst (delete_note (Oid i) w) in
  snd (delete_note (Oid i) w) = Redirect "/notes" /\
  (forall m, In m (notes (db w')) <-> In m (notes (db w)) /\ m <> n) /\
  get_note (Oid i) w' = (w', not_found) /\
  delete_note (Oid i) w' = (w', not_found).
Proof.
  intros Hs Hnd Hf w'. subst w'.
  rewrite (delete_note_run w uid i Hs), Hf. cbn [fst snd].
  destruct (delete_unique i uid _ n Hnd Hf) as [Hiff Hnone].
  split; [reflexivity|]. split; [exact Hiff|].
  set (w' := {| db := _; session := session w; outbox := outbox w |}).
  assert (Hgone : Note.findOne i uid (notes (db w')) = None).
  { apply Note_findOne_none. intros m Hm [Hid _]. apply Hnone.
    apply in_map_iff. exists m. split; [exact Hid | exact Hm]. }
  destruct (get_note_run w' uid i Hs) as [G _].
  rewrite G, (delete_note_run w' uid i Hs), Hgone,
    (findOneAndDelete_none _ _ _ Hgone).
  cbn [snd]. now rewrite world_eta.
Qed.

Lemma deleted_note_is_gone_witness :
  let w' := fst (delete_note (Oid 11%N) Sample.w_b) in
  snd (delete_note (Oid 11%N) Sample.w_b) = Redirect "/notes" /\
  get_note (Oid 11%N) w' = (w', not_found) /\
  delete_note (Oid 11%N) w' = (w', not_found).
Proof.
  destruct (deleted_note_is_gone Sample.w_b 200%N 11%N Sample.note_b)
    as (Hdel & _ & Hget & Hagain).
  - reflexivity.
  - simpl. repeat constructor; simpl; intuition discriminate.
  - reflexivity.
  - repeat split; assumption.
Defined.

(** X7: what a logged-in session is answered by the notes routes depends
    only on the notes that session's user owns: the responses of the index,
    of reading, of opening for edit, of updating and of deleting are the
    same as in the world in which nobody else has any note. *)
Theorem notes_responses_ignore_foreign_notes (env : Env) (w : World)
        (uid : ObjectId) (id : Param) (ttl cnt : Field) :
  userId (session w) = Some uid ->
  snd (get_notes w) = snd (get_notes (only_notes_of uid w)) /\
  snd (get_note id w) = snd (get_note id (only_notes_of uid w)) /\
  snd (get_note_edit id w) = snd (get_note_edit id (only_notes_of uid w)) /\
  snd (put_note env id ttl cnt w)
    = snd (put_note env id ttl cnt (only_notes_of uid w)) /\
  snd (delete_note id w) = snd (delete_note id (only_notes_of uid w)).
Proof.
  intros Hs.
  assert (Hs' : userId (session (only_notes_of uid w)) = Some uid)
    by exact Hs.
  split.
  { rewrite (get_notes_run w uid Hs), (get_notes_run _ uid Hs').
    cbn [snd only_notes_of db notes with_notes].
    now rewrite Note_find_idem. }
  destruct id as [i|s].
  - destruct (get_note_run w uid i Hs) as [G E].
    destruct (get_note_run _ uid i Hs') as [G' E'].
    rewrite G, E, G', E', (put_note_run env ttl cnt w uid i Hs),
      (put_note_run env ttl cnt _ uid i Hs'), (delete_note_run w uid i Hs),
      (delete_note_run _ uid i Hs').
    cbn [snd only_notes_of db notes with_notes].
    rewrite Note_findOne_owned. repeat split; reflexivity.
  - destruct (malformed_id_is_an_error env w uid s ttl cnt Hs)
      as (G & P & D).
    destruct (malformed_id_is_an_error env _ uid s ttl cnt Hs')
      as (G' & P' & D').
    rewrite G, P, D, G', P', D'.
    unfold get_note_edit, asyncWrap, requireLogin, bind, get_session, cast,
      throw.
    rewrite Hs, Hs'. repeat split; reflexivity.
Qed.

Lemma notes_responses_ignore_foreign_notes_witness :
  snd (get_notes Sample.w_b)
    = snd (get_notes (only_notes_of 200%N Sample.w_b)) /\
  snd (delete_note (Oid 10%N) Sample.w_b)
    = snd (delete_note (Oid 10%N) (only_notes_of 200%N Sample.w_b)).
Proof.
  destruct (notes_responses_ignore_foreign_notes Sample.env Sample.w_b
              200%N (Oid 10%N) None None eq_refl)
    as (Hlist & _ & _ & _ & Hdel).
  split; [exact Hlist | exact Hdel].
Defined.

(** ** The sorted records of an email *)

Lemma insert_desc_perm (a : OTP.t) (l : list OTP.t) :
  Permutation (OTP.insert_desc a l) (a :: l).
Proof.
  induction l as [|x l IH]; simpl; [apply Permutation_refl|].
  destruct (OTP.createdAt x <? OTP.createdAt a); [apply Permutation_refl|].
  apply Permutation_trans with (x :: a :: l).
  - now apply perm_skip.
  - apply perm_swap.
Qed.

Lemma sort_desc_perm (l : list OTP.t) : Permutation (OTP.sort_desc l) l.
Proof.
  induction l as [|a l IH]; simpl; [apply Permutation_refl|].
  apply Permutation_trans with (a :: OTP.sort_desc l).
  - apply insert_desc_perm.
  - now apply perm_skip.
Qed.

Lemma insert_desc_sorted (a : OTP.t) (l : list OTP.t) :
  sorted_desc l -> sorted_desc (OTP.insert_desc a l).
Proof.
  induction l as [|x l IH]; simpl; intros Hs.
  - split; [intros y []|exact I].
  - destruct Hs as [Hx Hl].
    destruct (Z.ltb_spec (OTP.createdAt x) (OTP.createdAt a)); simpl.
    + split; [|now split].
      intros y [<-|Hy]; [lia|]. specialize (Hx y Hy). lia.
    + split; [|now apply IH].
      intros y Hy.
      apply (Permutation_in _ (insert_desc_perm a l)) in Hy.
      destruct Hy as [<-|Hy]; [lia|now apply Hx].
Qed.

Lemma sort_desc_sorted (l : list OTP.t) : sorted_desc (OTP.sort_desc l).
Proof.
  induction l as [|a l IH]; simpl; [exact I|].
  now apply insert_desc_sorted.
Qed.

(** X8: the list [POST /verify-otp] looks at, [OTP.find({ userIdentifier:
    email }).sort({ createdAt: -1 })], holds exactly the records of that
    email, each as often as the collection holds it, and is ordered newest
    first. *)
Theorem otpRecords_sorted (email : string) (d : Db) :
  Permutation (otpRecords email d) (OTP.find email (otps d)) /\
  sorted_desc (otpRecords email d) /\
  (forall r, In r (otpRecords email d)
             <-> In r (otps d) /\ OTP.userIdentifier r = email).
Proof.
  unfold otpRecords. split; [apply sort_desc_perm|].
  split; [apply sort_desc_sorted|].
  intros r. rewrite <- find_In. split.
  - apply Permutation_in, sort_desc_perm.
  - apply Permutation_in, Permutation_sym, sort_desc_perm.
Qed.

(** ** Signup and verification together *)

Lemma deleteOne_fresh (id : ObjectId) (c : list OTP.t) (r : OTP.t) :
  ~ In id (map OTP._id c) -> OTP._id r = id ->
  OTP.deleteOne id (c ++ [r]) = c.
Proof.
  intros Hfresh Hid.
  induction c as [|x c IH]; simpl.
  - rewrite Hid, N.eqb_refl. reflexivity.
  - destruct (N.eqb_spec (OTP._id x) id) as [E|_].
    + exfalso. apply Hfresh. simpl. now left.
    + rewrite IH; [reflexivity|].
      intros Hin. apply Hfresh. simpl. now right.
Qed.

(** X9: a signup with a non-empty email whose mail is accepted and whose
    session is saved, followed by a verification with the code of that mail,
    succeeds whenever the clock is ahead of every record the email already
    has and the new id is not in use: the OTP collection is back to what it
    was before the signup, and the session holds the email as pending and as
    verified, with [userId] untouched. *)
Theorem signup_then_verify (env : Env) (e : string) (w : World) :
  e <> "" ->
  mail_accepted env = true ->
  session_saved env = true ->
  ~ In (new_oid env) (map OTP._id (otps (db w))) ->
  (forall r, In r (otps (db w)) -> OTP.userIdentifier r = e ->
             OTP.createdAt r < now env) ->
  let code := toString (drawn env) in
  let mail := {| to := Some e;
                 subject := "Your OTP Code";
                 text := ("Your OTP is " ++ code ++ ".")%string |} in
  let w1 := fst (post_signup env (Some e) w) in
  outbox w1 = outbox w ++ [mail] /\
  post_verify_otp (Some code) w1 =
    ({| db := {| users := users (db w);
                 otps := otps (db w);
                 notes := notes (db w) |};
        session := {| userId := userId (session w);
                      userIdentifier := Some e;
                      tempUserIdentifier := Some e |};
        outbox := outbox w ++ [mail] |},
     Redirect "/set-password").
Proof.
  intros He Hmail Hsaved Hfresh Hclock code mail w1. subst w1.
  rewrite (signup_run env e w He). cbn zeta. rewrite Hmail, Hsaved.
  cbn [fst outbox].
  split; [reflexivity|].
  set (w1 := {| db := _; session := _; outbox := _ |}).
  assert (Hl : latestOtp e (db w1) = Some (issued env e)).
  { apply latestOtp_newest.
    - cbn. apply in_or_app. right. now left.
    - reflexivity.
    - intros x Hx Hxe Hne. cbn in Hx. apply in_app_or in Hx.
      destruct Hx as [Hx|[<-|[]]]; [|now destruct Hne].
      cbn. now apply Hclock. }
  rewrite (verify_otp_run (Some code) w1 e eq_refl He), Hl.
  cbn [field_eqb OTP.otp issued]. fold code. rewrite String.eqb_refl.
  change (otps (db w1)) with (otps (db w) ++ [issued env e]).
  change (OTP._id (issued env e)) with (new_oid env).
  rewrite (deleteOne_fresh (new_oid env) _ (issued env e) Hfresh eq_refl).
  reflexivity.
Qed.

Lemma signup_then_verify_witness :
  let w1 := fst (post_signup Sample.env (Some "a@x.com") Sample.w_pending) in
  snd (post_verify_otp (Some "654321") w1) = Redirect "/set-password" /\
  otps (db (fst (post_verify_otp (Some "654321") w1)))
    = otps (db Sample.w_pending).
Proof.
  destruct (signup_then_verify Sample.env "a@x.com" Sample.w_pending)
    as [_ Hv].
  - discriminate.
  - reflexivity.
  - reflexivity.
  - simpl. intuition discriminate.
  - intros r Hin Hid. simpl in Hin.
    destruct Hin as [<-|[<-|[<-|[]]]]; reflexivity.
  - cbv zeta in Hv |- *.
    change (toString (drawn Sample.env)) with "654321" in Hv.
    rewrite Hv. split; reflexivity.
Defined.

(** X10: the three ways [POST /signup] goes wrong.  Without an email, or
    with an empty one, Mongoose's validation throws before anything is
    written.  When the transporter rejects the mail, the record is already
    stored and stays, but the session is not given the pending email.  When
    saving the session fails, the record is stored and the mail is sent, the
    answer is "Session error", and the stored session is what it was: if it
    held no pending email, the code that was mailed cannot be used, since a
    following [POST /verify-otp] is answered "Session expired or email not
    found." *)
Theorem signup_failure_modes (env : Env) (w : World) :
  (forall email,
     truthy email = false ->
     post_signup env email w
       = (w, error_handler (ValidationError "OTP" "userIdentifier")))
  /\
  (forall e,
     e <> "" -> mail_accepted env = false ->
     post_signup env (Some e) w
       = ({| db := with_otps (db w) (otps (db w) ++ [issued env e]);
             session := session w;
             outbox := outbox w |},
          error_handler MailError))
  /\
  (forall e,
     e <> "" -> mail_accepted env = true -> session_saved env = false ->
     let w' := {| db := with_otps (db w) (otps (db w) ++ [issued env e]);
                  session := session w;
                  outbox := outbox w
                            ++ [otp_mail (Some e) (toString (drawn env))] |} in
     post_signup env (Some e) w = (w', Send 200 "Session error") /\
     (truthy (userIdentifier (session w)) = false ->
      forall otp,
        post_verify_otp otp w'
          = (w', Send 200 "Session expired or email not found."))).
Proof.
  split; [|split].
  - intros email T. now apply signup_invalid_email.
  - intros e He Hm. rewrite (signup_run env e w He). cbn zeta.
    now rewrite Hm.
  - intros e He Hm Hsv w'. rewrite (signup_run env e w He). cbn zeta.
    rewrite Hm, Hsv. split; [reflexivity|].
    intros Hno otp.
    unfold truthy in Hno.
    unfold post_verify_otp, asyncWrap, bind, get_session.
    cbn [session w'].
    destruct (userIdentifier (session w)) as [x|]; [|reflexivity].
    destruct (x =? "")%string; [reflexivity|discriminate].
Qed.

Lemma signup_failure_modes_witness :
  post_signup Sample.env (Some "") Sample.w_fresh
    = (Sample.w_fresh,
       error_handler (ValidationError "OTP" "userIdentifier")) /\
  otps (db (fst (post_signup
                   {| drawn := 5; now := 9; new_oid := 50%N; salt := 7%N;
                      mail_accepted := false; session_saved := true |}
                   (Some "c@x.com") Sample.w_fresh)))
    = otps Sample.store ++ [OTP.mk 50%N "c@x.com" "5" 9] /\
  snd (post_signup
         {| drawn := 5; now := 9; new_oid := 50%N; salt := 7%N;
            mail_accepted := true; session_saved := false |}
         (Some "c@x.com") Sample.w_fresh)
    = Send 200 "Session error" /\
  session (fst (post_signup
                  {| drawn := 5; now := 9; new_oid := 50%N; salt := 7%N;
                     mail_accepted := true; session_saved := false |}
                  (Some "c@x.com") Sample.w_fresh))
    = empty_session.
Proof.
  split; [|split].
  - apply (proj1 (signup_failure_modes Sample.env Sample.w_fresh)).
    reflexivity.
  - rewrite (proj1 (proj2 (signup_failure_modes
                             {| drawn := 5; now := 9; new_oid := 50%N;
                                salt := 7%N; mail_accepted := false;
                                session_saved := true |}
                             Sample.w_fresh)) "c@x.com");
      [reflexivity | discriminate | reflexivity].
  - destruct (proj2 (proj2 (signup_failure_modes
                              {| drawn := 5; now := 9; new_oid := 50%N;
                                 salt := 7%N; mail_accepted := true;
                                 session_saved := false |}
                              Sample.w_fresh)) "c@x.com"
                ltac:(discriminate) eq_refl eq_refl) as [Hrun _].
    rewrite Hrun. split; reflexivity.
Defined.

(** X11: a code is good for one verification.  Ids being unique, the record
    a successful verification consumed is no longer in the collection, and
    when it was the only record of the pending email, any further
    verification in that session, whatever the code, is answered "No OTP
    record found." and changes nothing. *)
Theorem consumed_code_is_single_use (w : World) (e : string)
        (latest : OTP.t) :
  userIdentifier (session w) = Some e -> e <> "" ->
  NoDup (map OTP._id (otps (db w))) ->
  latestOtp e (db w) = Some latest ->
  let w1 := fst (post_verify_otp (Some (OTP.otp latest)) w) in
  ~ In latest (otps (db w1)) /\
  ((forall r, In r (otps (db w)) -> OTP.userIdentifier r = e -> r = latest) ->
   forall otp, post_verify_otp otp w1 = (w1, Send 200 "No OTP record found.")).
Proof.
  intros Hs He Hnd Hl w1. subst w1.
  rewrite (verify_otp_run _ w e Hs He), Hl.
  cbn [field_eqb]. rewrite String.eqb_refl. cbn [fst].
  destruct (latestOtp_spec _ _ _ Hl) as (Hin & _ & _).
  destruct (deleteOne_unique _ _ Hnd Hin) as (l1 & l2 & Hc & Hdel).
  set (w1 := {| db := _; session := _; outbox := _ |}).
  assert (Hotps : otps (db w1) = l1 ++ l2) by exact Hdel.
  assert (Hout : ~ In latest (l1 ++ l2)).
  { rewrite Hc, map_app in Hnd. simpl in Hnd.
    apply NoDup_remove_2 in Hnd. intros Hin'. apply Hnd.
    rewrite <- map_app. now apply in_map. }
  split; [now rewrite Hotps|].
  intros Honly otp.
  assert (Hs1 : userIdentifier (session w1) = Some e) by exact Hs.
  rewrite (verify_otp_run otp w1 e Hs1 He).
  assert (Hnone : latestOtp e (db w1) = None).
  { apply latestOtp_none. intros r Hr Hre.
    rewrite Hotps in Hr. apply Hout.
    rewrite <- (Honly r); auto.
    rewrite Hc. apply in_app_or in Hr. apply in_or_app.
    destruct Hr; [now left | right; now right]. }
  now rewrite Hnone.
Qed.

Lemma consumed_code_is_single_use_witness :
  let w := {| db := with_otps Sample.store [Sample.otp3; Sample.otp2];
              session := Sample.pending (Some "a@x.com");
              outbox := [] |} in
  let w1 := fst (post_verify_otp (Some "222222") w) in
  ~ In Sample.otp2 (otps (db w1)) /\
  post_verify_otp (Some "222222") w1
    = (w1, Send 200 "No OTP record found.").
Proof.
  intros w.
  destruct (consumed_code_is_single_use w "a@x.com" Sample.otp2)
    as [Hgone Hreplay].
  - reflexivity.
  - discriminate.
  - simpl. repeat constructor; simpl; intuition discriminate.
  - reflexivity.
  - split; [exact Hgone|]. apply Hreplay.
    intros r Hin Hid. simpl in Hin.
    destruct Hin as [<-|[<-|[]]]; [discriminate Hid | reflexivity].
Defined.

(** ** Accounts *)

Lemma User_findOne_app (e : Field) (c : list User.t) (u : User.t) :
  User.findOne e (c ++ [u])
    = match User.findOne e c with
      | Some old => Some old
      | None => if field_eqb (User.email u) e then Some u else None
      end.
Proof.
  unfold User.findOne. induction c as [|x c IH]; simpl; [reflexivity|].
  destruct (field_eqb (User.email x) e); [reflexivity|exact IH].
Qed.

Lemma set_password_run {bc : Bcrypt} (required : bool) (env : Env)
      (p e : string) (w : World) :
  tempUserIdentifier (session w) = Some e -> e <> "" ->
  post_set_password required env (Some p) w
  = ({| db := with_users (db w)
                (users (db w)
                 ++ [User.mk (new_oid env) (Some e)
                       (bcrypt_hash p 12%N (salt env))]);
        session := authenticated (session w) (new_oid env);
        outbox := outbox w |},
     Redirect "/notes").
Proof.
  intros Ht He. apply String.eqb_neq in He.
  unfold post_set_password, asyncWrap, bind, hash, ret, get_session,
    User_save, truthy.
  cbn. rewrite Ht, He. cbn. now rewrite andb_false_r.
Qed.

(** X13: the password set after a verification opens the account.  When no
    User has the verified email yet and bcrypt accepts a password against
    its own hash, [POST /set-password] creates the User and logs the session
    in, and after a logout [POST /login] with that email and password logs
    in as the same User, while a password bcrypt rejects against the stored
    hash is answered "Invalid Password". *)
Theorem set_password_then_login {bc : Bcrypt} (required : bool) (env : Env)
        (p e : string) (w : World) :
  tempUserIdentifier (session w) = Some e -> e <> "" ->
  (forall u, In u (users (db w)) -> User.email u <> Some e) ->
  bcrypt_compare p (bcrypt_hash p 12%N (salt env)) = true ->
  let w1 := fst (post_set_password required env (Some p) w) in
  let w2 := fst (get_logout w1) in
  snd (post_set_password required env (Some p) w) = Redirect "/notes" /\
  userId (session w1) = Some (new_oid env) /\
  post_login (Some e) (Some p) w2
    = ({| db := db w1;
          session := authenticated empty_session (new_oid env);
          outbox := outbox w |},
       Redirect "/notes") /\
  (forall p',
     bcrypt_compare p' (bcrypt_hash p 12%N (salt env)) = false ->
     post_login (Some e) (Some p') w2 = (w2, Send 200 "Invalid Password")).
Proof.
  intros Ht He Hnew Hok w1 w2. subst w2 w1.
  rewrite (set_password_run required env p e w Ht He). cbn [fst snd].
  split; [reflexivity|]. split; [reflexivity|].
  apply User_findOne_none in Hnew.
  set (u := User.mk (new_oid env) (Some e) (bcrypt_hash p 12%N (salt env))).
  assert (Hu : User.findOne (Some e) (users (db w) ++ [u]) = Some u).
  { rewrite User_findOne_app, Hnew. cbn. now rewrite String.eqb_refl. }
  unfold post_login, get_logout, asyncWrap, bind, get_db, compare, ret,
    get_session, put_session.
  cbn [fst db users with_users session outbox]. rewrite Hu.
  split.
  - cbn [User.password u]. rewrite Hok. reflexivity.
  - intros p' Hbad. cbn [User.password u]. rewrite Hbad. reflexivity.
Qed.

Lemma set_password_then_login_witness :
  let w := {| db := Sample.store;
              session := {| userId := None;
                            userIdentifier := Some "c@x.com";
                            tempUserIdentifier := Some "c@x.com" |};
              outbox := [] |} in
  let w1 := fst (post_set_password (bc := Sample.toy_bcrypt) true Sample.env
                   (Some "secret") w) in
  let w2 := fst (get_logout w1) in
  userId (session (fst (post_login (bc := Sample.toy_bcrypt)
                          (Some "c@x.com") (Some "secret") w2)))
    = Some 50%N /\
  post_login (bc := Sample.toy_bcrypt) (Some "c@x.com") (Some "guess") w2
    = (w2, Send 200 "Invalid Password").
Proof.
  intros w.
  destruct (set_password_then_login (bc := Sample.toy_bcrypt) true
              Sample.env "secret" "c@x.com" w)
    as (_ & _ & Hlogin & Hbad).
  - reflexivity.
  - discriminate.
  - intros u Hin. simpl in Hin. destruct Hin as [<-|[<-|[]]]; discriminate.
  - reflexivity.
  - cbv zeta in Hlogin, Hbad |- *. rewrite Hlogin.
    split; [reflexivity|]. apply Hbad. reflexivity.
Defined.

(** X14: [POST /set-password] does not look for a User with the verified
    email.  When one exists, a second User with the same email is stored all
    the same and the session is logged in as the new one; but
    [User.findOne] keeps returning the older User, so a later login with
    that email is checked against the older User's hash. *)
Theorem duplicate_account_is_shadowed {bc : Bcrypt} (required : bool)
        (env : Env) (p e : string) (old : User.t) (w : World) :
  tempUserIdentifier (session w) = Some e -> e <> "" ->
  User.findOne (Some e) (users (db w)) = Some old ->
  let w1 := fst (post_set_password required env (Some p) w) in
  users (db w1)
    = users (db w)
      ++ [User.mk (new_oid env) (Some e) (bcrypt_hash p 12%N (salt env))] /\
  userId (session w1) = Some (new_oid env) /\
  User.findOne (Some e) (users (db w1)) = Some old /\
  (forall p',
     bcrypt_compare p' (User.password old) = false ->
     post_login (Some e) (Some p') w1 = (w1, Send 200 "Invalid Password")).
Proof.
  intros Ht He Hold w1. subst w1.
  rewrite (set_password_run required env p e w Ht He). cbn [fst].
  cbn [db users with_users session authenticated userId].
  assert (Hf : User.findOne (Some e)
                 (users (db w)
                  ++ [User.mk (new_oid env) (Some e)
                        (bcrypt_hash p 12%N (salt env))]) = Some old).
  { now rewrite User_findOne_app, Hold. }
  repeat split; [exact Hf|].
  intros p' Hbad.
  unfold post_login, asyncWrap, bind, get_db, compare, ret.
  cbn [db users with_users]. rewrite Hf. cbn. now rewrite Hbad.
Qed.

Lemma duplicate_account_is_shadowed_witness :
  let w := {| db := Sample.store;
              session := {| userId := None;
                            userIdentifier := Some "a@x.com";
                            tempUserIdentifier := Some "a@x.com" |};
              outbox := [] |} in
  let w1 := fst (post_set_password (bc := Sample.toy_bcrypt) false Sample.env
                   (Some "new") w) in
  users (db w1)
    = [Sample.user_a; Sample.user_b;
       User.mk 50%N (Some "a@x.com") "hash-new"] /\
  post_login (bc := Sample.toy_bcrypt) (Some "a@x.com") (Some "new") w1
    = (w1, Send 200 "Invalid Password").
Proof.
  intros w.
  destruct (duplicate_account_is_shadowed (bc := Sample.toy_bcrypt) false
              Sample.env "new" "a@x.com" Sample.user_a w
              eq_refl ltac:(discriminate) eq_refl)
    as (Husers & _ & _ & Hshadow).
  split; [exact Husers|]. apply Hshadow. reflexivity.
Defined.

(** X15: a request without the [password] field makes bcrypt throw.
    [POST /set-password] then stores no User and [POST /login], for an email
    some User has, logs nobody in: both answer through the error middleware
    with status 500 and leave the world as it was.  [POST /login] for an
    email no User has is answered "No user" before the password is looked
    at. *)
Theorem missing_password_is_an_error {bc : Bcrypt} (required : bool)
        (env : Env) (email : Field) (w : World) :
  post_set_password required env None w
    = (w, error_handler BcryptArgsError) /\
  ((exists u, In u (users (db w)) /\ User.email u = email) ->
   post_login email None w = (w, error_handler BcryptArgsError)) /\
  ((forall u, In u (users (db w)) -> User.email u <> email) ->
   post_login email None w = (w, Send 200 "No user")).
Proof.
  split; [reflexivity|].
  unfold post_login, asyncWrap, bind, get_db, compare. split.
  - intros Hex. apply User_findOne_exists in Hex. destruct Hex as [u Hu].
    now rewrite Hu.
  - intros Hnone. apply User_findOne_none in Hnone. now rewrite Hnone.
Qed.

Lemma missing_password_is_an_error_witness :
  post_login (bc := Sample.toy_bcrypt) (Some "a@x.com") None Sample.w_fresh
    = (Sample.w_fresh, error_handler BcryptArgsError) /\
  post_login (bc := Sample.toy_bcrypt) (Some "c@x.com") None Sample.w_fresh
    = (Sample.w_fresh, Send 200 "No user").
Proof.
  split.
  - apply (proj1 (proj2 (missing_password_is_an_error
                           (bc := Sample.toy_bcrypt) false Sample.env
                           (Some "a@x.com") Sample.w_fresh))).
    exists Sample.user_a. split; [simpl; tauto | reflexivity].
  - apply (proj2 (proj2 (missing_password_is_an_error
                           (bc := Sample.toy_bcrypt) false Sample.env
                           (Some "c@x.com") Sample.w_fresh))).
    intros u Hin. simpl in Hin. destruct Hin as [<-|[<-|[]]]; discriminate.
Defined.

(** ** Unique note ids *)

Lemma delete_incl (i uid : ObjectId) (c : list Note.t) :
  incl (snd (Note.findOneAndDelete i uid c)) c.
Proof.
  induction c as [|x c IH]; simpl; [apply incl_refl|].
  destruct (Note.matches i uid x); simpl.
  - apply incl_tl, incl_refl.
  - destruct (Note.findOneAndDelete i uid c) as [r c']. simpl in *.
    apply incl_cons; [now left|]. now apply incl_tl.
Qed.

Lemma delete_NoDup (i uid : ObjectId) (c : list Note.t) :
  NoDup (map Note._id c) ->
  NoDup (map Note._id (snd (Note.findOneAndDelete i uid c))).
Proof.
  induction c as [|x c IH]; simpl; intros Hnd; [exact Hnd|].
  inversion Hnd as [|? ? Hx Hnd']; subst.
  destruct (Note.matches i uid x); simpl; [exact Hnd'|].
  pose proof (delete_incl i uid c) as Hincl.
  destruct (Note.findOneAndDelete i uid c) as [r c']. simpl in *.
  constructor; [|now apply IH].
  intros Hin. apply Hx. apply in_map_iff in Hin.
  destruct Hin as (y & Hy & Hiny). apply in_map_iff. exists y.
  split; [exact Hy|]. now apply Hincl.
Qed.

(** X16: the notes routes keep the ids of the note collection unique: an
    update and a delete always do, and a creation does when the id given to
    the new note is not in use. *)
Theorem unique_note_ids_kept (env : Env) (id : Param) (ttl cnt : Field)
        (w : World) :
  NoDup (map Note._id (notes (db w))) ->
  NoDup (map Note._id (notes (db (fst (put_note env id ttl cnt w))))) /\
  NoDup (map Note._id (notes (db (fst (delete_note id w))))) /\
  (~ In (new_oid env) (map Note._id (notes (db w))) ->
   NoDup (map Note._id (notes (db (fst (post_notes env ttl cnt w)))))).
Proof.
  intros Hnd.
  destruct (userId (session w)) as [uid|] eqn:Hs.
  - split; [|split].
    + destruct id as [i|s].
      * rewrite (put_note_run env ttl cnt w uid i Hs).
        cbn [fst db notes with_notes]. now rewrite update_keeps_ids.
      * destruct (malformed_id_is_an_error env w uid s ttl cnt Hs)
          as (_ & P & _). now rewrite P.
    + destruct id as [i|s].
      * rewrite (delete_note_run w uid i Hs).
        cbn [fst db notes with_notes]. now apply delete_NoDup.
      * destruct (malformed_id_is_an_error env w uid s ttl cnt Hs)
          as (_ & _ & D). now rewrite D.
    + intros Hfresh. rewrite (post_notes_run env ttl cnt w uid Hs).
      cbn [fst db notes with_notes]. rewrite map_app. simpl.
      apply NoDup_app; [exact Hnd | repeat constructor; intros [] |].
      intros x Hx [<-|[]]. exact (Hfresh Hx).
  - destruct (not_logged_in_redirects env w id ttl cnt Hs) as (_ & P & D).
    rewrite P, D. split; [exact Hnd|]. split; [exact Hnd|].
    intros _. unfold post_notes, asyncWrap, requireLogin, bind, get_session.
    now rewrite Hs.
Qed.

Lemma unique_note_ids_kept_witness :
  NoDup (map Note._id
           (notes (db (fst (delete_note (Oid 11%N) Sample.w_b))))) /\
  NoDup (map Note._id
           (notes (db (fst (post_notes Sample.env None None Sample.w_b))))).
Proof.
  destruct (unique_note_ids_kept Sample.env (Oid 11%N) None None Sample.w_b)
    as (_ & Hdel & Hpost).
  - simpl. repeat constructor; simpl; intuition discriminate.
  - split; [exact Hdel|]. apply Hpost. simpl. intuition discriminate.
Defined.

(** ** The application as a whole *)

Ltac run_handlers :=
  unfold app, get_root, get_notes, get_notes_new, get_form, page_not_found,
    post_notes, get_note, get_note_edit, put_note, delete_note, post_signup,
    request_otp, post_verify_otp, post_set_password, post_login, get_logout,
    asyncWrap, sync, requireLogin, try_catch, OTP_create, OTP.validate,
    sendMail, session_save, User_save, hash, compare, cast, lift, bind, ret,
    throw,
    get_db, put_db, get_session, put_session;
  cbn.

Ltac split_matches :=
  repeat (match goal with
          | |- context [match ?x with _ => _ end] =>
              lazymatch x with
              | context [match _ with _ => _ end] => fail
              | _ => destruct x eqn:?
              end
          end; cbn).

(** X17: what each route can write.  Notes change only through
    [POST /notes], [PUT] and [DELETE /notes/:id]; OTP records only through
    [POST /signup] and [POST /verify-otp]; Users only through
    [POST /set-password]; a mail is sent only by [POST /signup]; and the
    session is written only by the four POST routes of the signup and login
    flow and by [GET /logout].  Every other GET route, and a request no
    route matches, leaves the world exactly as it was. *)
Theorem app_write_sets {bc : Bcrypt} (required : bool) (env : Env)
        (req : Request) (w : World) :
  let w' := fst (app required env req w) in
  (writes_notes req = false -> notes (db w') = notes (db w)) /\
  (writes_otps req = false -> otps (db w') = otps (db w)) /\
  (writes_users req = false -> users (db w') = users (db w)) /\
  (sends_mail req = false -> outbox w' = outbox w) /\
  (writes_session req = false -> session w' = session w).
Proof.
  destruct req; run_handlers; split_matches;
    repeat split; intros; try discriminate; reflexivity.
Qed.

Lemma app_write_sets_witness :
  otps (db (fst (app (bc := Sample.toy_bcrypt) false Sample.env
                   (DeleteNote (Oid 11%N)) Sample.w_b)))
    = otps Sample.store /\
  session (fst (app (bc := Sample.toy_bcrypt) false Sample.env
                  (DeleteNote (Oid 11%N)) Sample.w_b))
    = Sample.logged_in 200%N /\
  notes (db (fst (app (bc := Sample.toy_bcrypt) false Sample.env
                    (PostLogin (Some "a@x.com") (Some "a")) Sample.w_b)))
    = notes Sample.store.
Proof.
  destruct (app_write_sets (bc := Sample.toy_bcrypt) false Sample.env
              (DeleteNote (Oid 11%N)) Sample.w_b)
    as (_ & Ho & _ & _ & Hs).
  destruct (app_write_sets (bc := Sample.toy_bcrypt) false Sample.env
              (PostLogin (Some "a@x.com") (Some "a")) Sample.w_b)
    as (Hn & _).
  split; [exact (Ho eq_refl)|]. split; [exact (Hs eq_refl)|].
  exact (Hn eq_refl).
Defined.

Lemma foreign_update (i uid : ObjectId) (ttl cnt : Field) (t : Date)
      (c : list Note.t) :
  foreign uid (snd (Note.findOneAndUpdate i uid ttl cnt t c)) = foreign uid c.
Proof.
  unfold foreign. induction c as [|x c IH]; simpl; [reflexivity|].
  destruct (Note.matches i uid x) eqn:Hm; simpl.
  - apply matches_true in Hm. destruct Hm as [_ Hu].
    apply N.eqb_eq in Hu. now rewrite Hu.
  - destruct (Note.findOneAndUpdate i uid ttl cnt t c) as [r c'].
    simpl in *. now rewrite IH.
Qed.

Lemma foreign_delete (i uid : ObjectId) (c : list Note.t) :
  foreign uid (snd (Note.findOneAndDelete i uid c)) = foreign uid c.
Proof.
  unfold foreign. induction c as [|x c IH]; simpl; [reflexivity|].
  destruct (Note.matches i uid x) eqn:Hm; simpl.
  - apply matches_true in Hm. destruct Hm as [_ Hu].
    apply N.eqb_eq in Hu. now rewrite Hu.
  - destruct (Note.findOneAndDelete i uid c) as [r c'].
    simpl in *. now rewrite IH.
Qed.

Lemma other_routes_keep_notes {bc : Bcrypt} (required : bool) (env : Env)
      (req : Request) (w : World) :
  writes_notes req = false ->
  notes (db (fst (app required env req w))) = notes (db w).
Proof.
  destruct req; intros Hw; try discriminate Hw;
    run_handlers; split_matches; reflexivity.
Qed.

(** X18: no request touches the notes of anybody but the session's user.
    Without [userId] in the session the note collection is left as it was;
    with it, the notes owned by other users are, after any request, the same
    notes in the same order. *)
Theorem app_keeps_foreign_notes {bc : Bcrypt} (required : bool) (env : Env)
        (req : Request) (w : World) :
  let w' := fst (app required env req w) in
  (userId (session w) = None -> notes (db w') = notes (db w)) /\
  (forall uid, userId (session w) = Some uid ->
               foreign uid (notes (db w')) = foreign uid (notes (db w))).
Proof.
  cbn zeta. destruct (writes_notes req) eqn:Hw.
  - split.
    + intros Hs.
      destruct req; try discriminate Hw; cbn [app].
      * unfold post_notes, asyncWrap, requireLogin, bind, get_session.
        now rewrite Hs.
      * destruct (not_logged_in_redirects env w id title content Hs)
          as (_ & P & _). now rewrite P.
      * destruct (not_logged_in_redirects env w id None None Hs)
          as (_ & _ & D). now rewrite D.
    + intros uid Hs.
      destruct req; try discriminate Hw; cbn [app].
      * rewrite (post_notes_run env title content w uid Hs).
        cbn [fst db notes with_notes]. unfold foreign.
        rewrite filter_app. cbn. rewrite N.eqb_refl. cbn.
        now rewrite app_nil_r.
      * destruct id as [i|s].
        -- rewrite (put_note_run env title content w uid i Hs).
           cbn [fst db notes with_notes]. apply foreign_update.
        -- destruct (malformed_id_is_an_error env w uid s title content Hs)
             as (_ & P & _). now rewrite P.
      * destruct id as [i|s].
        -- rewrite (delete_note_run w uid i Hs).
           cbn [fst db notes with_notes]. apply foreign_delete.
        -- destruct (malformed_id_is_an_error env w uid s None None Hs)
             as (_ & _ & D). now rewrite D.
  - rewrite (other_routes_keep_notes required env req w Hw).
    split; reflexivity.
Qed.

Lemma app_keeps_foreign_notes_witness :
  foreign 200%N
    (notes (db (fst (app (bc := Sample.toy_bcrypt) false Sample.env
                       (DeleteNote (Oid 10%N)) Sample.w_b))))
    = [Sample.note_a] /\
  notes (db (fst (app (bc := Sample.toy_bcrypt) false Sample.env
                    (DeleteNote (Oid 10%N)) Sample.w_fresh)))
    = [Sample.note_a; Sample.note_b].
Proof.
  split.
  - rewrite (proj2 (app_keeps_foreign_notes (bc := Sample.toy_bcrypt) false
                      Sample.env (DeleteNote (Oid 10%N)) Sample.w_b)
               200%N eq_refl).
    reflexivity.
  - rewrite (proj1 (app_keeps_foreign_notes (bc := Sample.toy_bcrypt) false
                      Sample.env (DeleteNote (Oid 10%N)) Sample.w_fresh)
               eq_refl).
    reflexivity.
Defined.

Lemma app_users_grow {bc : Bcrypt} (required : bool) (env : Env)
      (req : Request) (w : World) :
  exists l, users (db (fst (app required env req w))) = users (db w) ++ l.
Proof.
  destruct req; run_handlers; split_matches;
    first [ now exists []; rewrite app_nil_r | eexists; reflexivity ].
Qed.

(** X19: no route deletes or rewrites a User.  After any sequence of
    requests the User collection is the one before, with the Users created
    in between appended. *)
Theorem users_only_grow {bc : Bcrypt} (required : bool)
        (reqs : list (Env * Request)) (w : World) :
  exists l, users (db (serve required reqs w)) = users (db w) ++ l.
Proof.
  revert w. induction reqs as [|[env req] reqs IH]; intros w; simpl.
  - exists []. now rewrite app_nil_r.
  - destruct (IH (fst (app required env req w))) as [l2 H2].
    destruct (app_users_grow required env req w) as [l1 H1].
    exists (l1 ++ l2). now rewrite H2, H1, app_assoc.
Qed.

Lemma app_keeps_session_user {bc : Bcrypt} (required : bool) (env : Env)
      (req : Request) (w : World) :
  session_user_exists w ->
  session_user_exists (fst (app required env req w)).
Proof.
  unfold session_user_exists. intros H.
  destruct req; run_handlers; split_matches; intros uid Hu;
    first
      [ now apply H
      | apply H; congruence
      | discriminate Hu
      | injection Hu as <-;
        match goal with
        | Hf : User.findOne _ _ = Some ?u |- _ =>
            apply User_findOne_spec in Hf; destruct Hf as [Hin _];
            exists u; split; [exact Hin | reflexivity]
        end
      | injection Hu as <-;
        eexists; split;
        [ apply in_or_app; right; left; reflexivity | reflexivity ] ].
Qed.

(** X20: a logged-in session always names a User of the collection.  If
    that holds before a sequence of requests, it holds after it: [userId] is
    only ever set to the id of a User just found or just stored, and Users
    are never removed. *)
Theorem session_user_always_exists {bc : Bcrypt} (required : bool)
        (reqs : list (Env * Request)) (w : World) :
  session_user_exists w ->
  session_user_exists (serve required reqs w).
Proof.
  revert w. induction reqs as [|[env req] reqs IH]; intros w Hw; simpl.
  - exact Hw.
  - apply IH. now apply app_keeps_session_user.
Qed.

Lemma session_user_always_exists_witness :
  session_user_exists
    (serve (bc := Sample.toy_bcrypt) false
       [(Sample.env, PostLogin (Some "a@x.com") (Some "a"));
        (Sample.env, PostNotes (Some "t") None)]
       Sample.w_fresh).
Proof.
  apply (session_user_always_exists (bc := Sample.toy_bcrypt) false).
  intros uid Hu. discriminate Hu.
Defined.

(** X21: where a verified email comes from.  After any request the
    session's [tempUserIdentifier] is what it was, unless the request was a
    logout, which clears it, or a [POST /verify-otp] in a session with a
    non-empty pending email that submitted the code of the most recent
    record of that email, which sets it to that email and redirects to
    [/set-password]. *)
Theorem verified_marker_source {bc : Bcrypt} (required : bool) (env : Env)
        (req : Request) (w : World) :
  let w' := fst (app required env req w) in
  tempUserIdentifier (session w') = tempUserIdentifier (session w) \/
  (req = GetLogout /\ tempUserIdentifier (session w') = None) \/
  (exists e latest,
     req = PostVerifyOtp (Some (OTP.otp latest)) /\
     userIdentifier (session w) = Some e /\ e <> "" /\
     latestOtp e (db w) = Some latest /\
     tempUserIdentifier (session w') = Some e /\
     snd (app required env req w) = Redirect "/set-password").
Proof.
  cbn zeta.
  destruct req;
    try (left; run_handlers; split_matches; reflexivity).
  - (* POST /verify-otp *)
    cbn [app].
    destruct (userIdentifier (session w)) as [e|] eqn:Hs.
    + destruct (String.eqb_spec e "") as [->|He].
      * left. unfold post_verify_otp, asyncWrap, bind, get_session.
        now rewrite Hs.
      * rewrite (verify_otp_run otp w e Hs He).
        destruct (latestOtp e (db w)) as [latest|] eqn:Hl; [|now left].
        destruct (field_eqb (Some (OTP.otp latest)) otp) eqn:E; [|now left].
        apply field_eqb_eq in E. subst otp.
        right. right. exists e, latest. repeat split; auto.
    + left. unfold post_verify_otp, asyncWrap, bind, get_session.
      now rewrite Hs.
  - (* GET /logout *)
    right. left. split; reflexivity.
Qed.

(** X22: where a login comes from.  After any request the session's
    [userId] is what it was, unless the request was a logout; or a
    [POST /login] whose email [User.findOne] found a User for and whose
    password bcrypt accepted against that User's hash, which sets it to that
    User's id; or a [POST /set-password] that stored a new User, which sets
    it to the id of that User. *)
Theorem authentication_sources {bc : Bcrypt} (required : bool) (env : Env)
        (req : Request) (w : World) :
  let w' := fst (app required env req w) in
  userId (session w') = userId (session w) \/
  (req = GetLogout /\ userId (session w') = None) \/
  (exists email p u,
     req = PostLogin email (Some p) /\
     User.findOne email (users (db w)) = Some u /\
     bcrypt_compare p (User.password u) = true /\
     userId (session w') = Some (User._id u)) \/
  (exists password u,
     req = PostSetPassword password /\
     users (db w') = users (db w) ++ [u] /\
     User.email u = tempUserIdentifier (session w) /\
     userId (session w') = Some (User._id u)).
Proof.
  cbn zeta.
  destruct req as [ | | |ttl cnt|id|id|id ttl cnt|id| |em| |otp| |pw|
                    |em pw| | ];
    try (left; run_handlers; split_matches; congruence).
  - (* POST /set-password *)
    cbn [app]. unfold post_set_password, asyncWrap, bind, hash, ret, throw,
      get_session, User_save, get_db, put_db, put_session.
    destruct pw as [p|]; [|now left]. cbn.
    destruct (required && negb (truthy (tempUserIdentifier (session w))));
      cbn; [now left|].
    right. right. right.
    exists (Some p),
      (User.mk (new_oid env) (tempUserIdentifier (session w))
         (bcrypt_hash p 12%N (salt env))).
    repeat split.
  - (* POST /login *)
    cbn [app]. unfold post_login, asyncWrap, bind, get_db, compare, ret,
      throw, get_session, put_session.
    destruct (User.findOne em (users (db w))) as [u|] eqn:Hu;
      [|now left].
    destruct pw as [p|]; [|now left]. cbn.
    destruct (bcrypt_compare p (User.password u)) eqn:Hc; cbn; [|now left].
    right. right. left. exists em, p, u. repeat split; auto.
  - (* GET /logout *)
    right. left. split; reflexivity.
Qed.

(** X25: a path id Mongoose cannot cast to an ObjectId is not answered with
    the not-found page.  For a logged-in session [GET /notes/:id] answers
    "Server error" with status 500 from its own [catch], while the edit
    form, [PUT] and [DELETE] go through the error middleware, which renders
    the error page with status 500; in all four cases the world is left as
    it was. *)
Theorem malformed_id_responses (env : Env) (w : World) (uid : ObjectId)
        (s : string) (ttl cnt : Field) :
  userId (session w) = Some uid ->
  get_note (Malformed s) w = (w, Send 500 "Server error") /\
  get_note_edit (Malformed s) w
    = (w, Render 500 "404" (ErrorMessage (CastError s))) /\
  put_note env (Malformed s) ttl cnt w
    = (w, Render 500 "404" (ErrorMessage (CastError s))) /\
  delete_note (Malformed s) w
    = (w, Render 500 "404" (ErrorMessage (CastError s))).
Proof.
  intros Hs.
  unfold get_note, get_note_edit, put_note, delete_note, asyncWrap,
    requireLogin, try_catch, bind, get_session, cast, throw.
  rewrite Hs. repeat split; reflexivity.
Qed.

Lemma malformed_id_responses_witness :
  get_note (Malformed "new-note") Sample.w_b
    = (Sample.w_b, Send 500 "Server error") /\
  delete_note (Malformed "new-note") Sample.w_b
    = (Sample.w_b, Render 500 "404" (ErrorMessage (CastError "new-note"))).
Proof.
  destruct (malformed_id_responses Sample.env Sample.w_b 200%N "new-note"
              None None eq_refl) as (G & _ & _ & D).
  split; [exact G | exact D].
Defined.
